(** * ai-hub: transcript resolver, insight extractor and paper-metadata fetcher

    A shallow embedding of [src/main.py] ([get_channel_videos],
    [get_transcript], [get_insights] and the main program) and of the
    fetcher of [src/scripts/fetch_hf_paper.py] ([fetch_paper_metadata], the
    three searches and [fetch_all_resources]).  The console formatting of
    [print_results] and the command line of the second script are not
    embedded.

    Both scripts are orchestration code around third-party collaborators
    (caption service, audio download, speech-to-text, sentiment scorer,
    summariser, entity tagger, HTTP session).  The collaborators are black
    boxes: an environment record fixes, for one call, what each of them
    answers (a value or a raised exception).  What the scripts themselves
    do, that is the order of the calls, the [try]/[except] chains, the
    dictionary that is built, the temporary file that is written and
    removed, is modelled in a state-and-exception monad over a world made
    of a file system and a log of the collaborator calls.

    Conventions.
    - A Python [str] is a [string]; a Python [float] is a binary64
      primitive [float]; a [dict] with string keys is a [gmap string _].
    - [print] calls only write to the console and are left out. *)

From Stdlib Require Import ZArith Floats Ascii String.
From stdpp Require Import base gmap strings list.

Set Warnings "-inexact-float,-register-all,-clear-no-such-hyp".

(* ===================================================================== *)
(** * The Python runtime the scripts rely on *)
(* ===================================================================== *)

Module Py.

(** ** Exceptions *)

(** The part of the exception hierarchy the two scripts can tell apart:
    a bare [except:] catches everything, [except Exception] everything but
    the [BaseException]-only classes, and
    [except requests.exceptions.RequestException] only that class. *)
Inductive exc_class :=
| KeyboardInterrupt      (* BaseException, not an Exception *)
| RuntimeError           (* any failure inside a collaborator *)
| KeyError
| IndexError
| FileNotFoundError      (* OSError *)
| PermissionError        (* OSError *)
| RequestException.      (* requests.exceptions.RequestException *)

Record exn := Exn { exn_class : exc_class; exn_msg : string }.

(** [isinstance(e, Exception)] *)
Definition is_Exception (e : exn) : bool :=
  match exn_class e with
  | KeyboardInterrupt => false
  | _ => true
  end.

(** [isinstance(e, requests.exceptions.RequestException)] *)
Definition is_RequestException (e : exn) : bool :=
  match exn_class e with
  | RequestException => true
  | _ => false
  end.

(** What a call yields: a value, or a raised exception. *)
Inductive outcome (A : Type) :=
| Ok (a : A)
| Raise (e : exn).
Arguments Ok {A} a.
Arguments Raise {A} e.

#[global] Instance exc_class_eq_dec : EqDecision exc_class.
Proof. solve_decision. Defined.

(** An outcome that, when it is a failure, is an [Exception] instance. *)
Definition raises_only_Exception {A} (o : outcome A) : bool :=
  match o with
  | Ok _ => true
  | Raise e => is_Exception e
  end.

(** ** Strings *)

(** [c in s] for a one-character [c]. *)
Fixpoint contains (c : ascii) (s : string) : bool :=
  match s with
  | EmptyString => false
  | String a s' => if decide (a = c) then true else contains c s'
  end.

(** [s.split(sep)] for a one-character separator: the pieces between the
    occurrences of [sep], never an empty list. *)
Fixpoint split (s : string) (sep : ascii) : list string :=
  match s with
  | EmptyString => [EmptyString]
  | String a s' =>
      if decide (a = sep) then EmptyString :: split s' sep
      else match split s' sep with
           | [] => [String a EmptyString]
           | piece :: pieces => String a piece :: pieces
           end
  end.

(** [l[-1]]; raises [IndexError] on the empty list. *)
Definition index_last {A} (l : list A) : outcome A :=
  match last l with
  | Some x => Ok x
  | None => Raise (Exn IndexError "list index out of range")
  end.

(** [l[0]] *)
Definition index_first {A} (l : list A) : outcome A :=
  match l with
  | x :: _ => Ok x
  | [] => Raise (Exn IndexError "list index out of range")
  end.

(** [d[k]] on a dictionary; raises [KeyError] when [k] is missing. *)
Definition getitem {V} (d : gmap string V) (k : string) : outcome V :=
  match d !! k with
  | Some v => Ok v
  | None => Raise (Exn KeyError k)
  end.

(** [sep.join(l)] *)
Fixpoint join (sep : string) (l : list string) : string :=
  match l with
  | [] => ""
  | [x] => x
  | x :: rest => x +:+ sep +:+ join sep rest
  end.

(** [s[:n]] *)
Fixpoint take_str (n : nat) (s : string) : string :=
  match n, s with
  | S k, String a s' => String a (take_str k s')
  | _, _ => EmptyString
  end.

(** [s.startswith(p)] *)
Fixpoint startswith (p s : string) : bool :=
  match p, s with
  | EmptyString, _ => true
  | String a p', String b s' => if decide (a = b) then startswith p' s' else false
  | String _ _, EmptyString => false
  end.

(** [s.replace(old, new)] for a non-empty [old]: occurrences are replaced
    from the left and do not overlap.  [skip] counts the characters of a
    matched occurrence that remain to be passed over. *)
Fixpoint replace_from (old new : string) (skip : nat) (s : string) : string :=
  match s with
  | EmptyString => EmptyString
  | String a s' =>
      match skip with
      | S k => replace_from old new k s'
      | O =>
          if startswith old s
          then new +:+ replace_from old new (String.length old - 1) s'
          else String a (replace_from old new 0 s')
      end
  end.

Definition replace (s old new : string) : string := replace_from old new 0 s.

(** ** [round(x, ndigits)] on floats *)

(** The integer nearest to [num / den] ([den > 0]), ties to even. *)
Definition round_half_even (num den : Z) : Z :=
  let q := (num / den)%Z in
  let r := (num mod den)%Z in
  match (2 * r ?= den)%Z with
  | Lt => q
  | Gt => (q + 1)%Z
  | Eq => if Z.even q then q else (q + 1)%Z
  end.

(** [round(x, ndigits)] for [ndigits >= 0], as CPython computes it: the
    exact binary value of [x] is rounded (ties to even) to a multiple of
    [10^-ndigits], and that decimal is converted to the nearest float.
    Zeros, infinities and NaN round to themselves; the sign is kept. *)
Definition round (x : float) (ndigits : N) : float :=
  match Prim2SF x with
  | S754_finite s m e =>
      let scale := (10 ^ Z.of_N ndigits)%Z in
      let n := match e with
               | Zneg p => round_half_even (Zpos m * scale) (2 ^ Zpos p)
               | _ => (Zpos m * 2 ^ e * scale)%Z
               end in
      match n, scale with
      | Zpos n', Zpos scale' =>
          SF2Prim (SFdiv prec emax (S754_finite s n' 0) (S754_finite false scale' 0))
      | _, _ => SF2Prim (S754_zero s)
      end
  | _ => x
  end.

End Py.

Import Py.

(* ===================================================================== *)
(** * The world: temporary files and the log of collaborator calls *)
(* ===================================================================== *)

Module World.

(** One entry per call that leaves the script.  The log is what lets a
    theorem say that a collaborator was, or was not, invoked. *)
Inductive event :=
| EvFetch (video_id : string) (languages : list string)
| EvYouTube (video_url : string)
| EvGetAudioOnly
| EvDownload (filename : string)
| EvTranscribe (audio_file : string)
| EvExists (path : string)
| EvRemove (path : string)
| EvTextBlob (text : string)
| EvSummarizer (text : string) (max_length min_length : Z) (do_sample : bool)
| EvNlp (text : string)
| EvGet (url : string) (timeout : Z).

Record world := World { files : gset string; log : list event }.

Definition record (ev : event) (w : world) : world :=
  World (files w) (log w ++ [ev]).

(** Computations: they read and change the world and either return a value
    or raise. *)
Definition M (A : Type) : Type := world -> outcome A * world.

#[global] Instance M_ret : MRet M := fun A a w => (Ok a, w).

#[global] Instance M_bind : MBind M := fun A B k m w =>
  match m w with
  | (Ok a, w') => k a w'
  | (Raise e, w') => (Raise e, w')
  end.

(** A pure step that may raise (an index or key lookup). *)
Definition lift {A} (o : outcome A) : M A := fun w => (o, w).

(** A call to a collaborator: it is logged, then answers. *)
Definition call {A} (ev : event) (o : outcome A) : M A :=
  fun w => (o, record ev w).

(** [try: body  except <classes>: handler].  An exception of the body that
    [catches] accepts runs the handler, in the world the body left; any
    other exception, and any exception of the handler, propagates. *)
Definition try_except {A} (body : M A) (catches : exn -> bool)
    (handler : exn -> M A) : M A :=
  fun w =>
    match body w with
    | (Ok a, w') => (Ok a, w')
    | (Raise e, w') => if catches e then handler e w' else (Raise e, w')
    end.

(** The bare [except:] clause. *)
Definition anything : exn -> bool := fun _ => true.

End World.

Import World.

(* ===================================================================== *)
(** * src/main.py *)
(* ===================================================================== *)

Module Main.

(** ** Collaborators *)

(** A [FetchedTranscriptSnippet] of the caption service. *)
Record FetchedTranscriptSnippet := Snippet {
  text : string;
  start : float;
  duration : float
}.

(** A named-entity span of the tagger: [ent.text] and [ent.label_]. *)
Record Span := MkSpan { ent_text : string; label_ : string }.

(** What [audio_stream.download(filename=...)] does: it writes the file and
    returns its path, or raises, with or without a partly written file
    left behind. *)
Inductive download_result :=
| Downloaded
| DownloadFailed (file_left : bool) (e : exn).

Record Stream := MkStream { download : string -> download_result }.

(** The object built by [YouTube(video_url)], with
    [yt.streams.get_audio_only()]. *)
Record YouTubeObject := MkYouTube {
  get_audio_only : outcome (option Stream)
}.

(** The answers of the collaborators during one call, and the three model
    handles of the module: [None] when loading failed at start-up. *)
Record env := Env {
  nlp : option (string -> outcome (list Span));
  summarizer :
    option (string -> Z -> Z -> bool -> outcome (list (gmap string string)));
  whisper_model : option (string -> outcome (gmap string string));
  (* YouTubeTranscriptApi().fetch(video_id, languages=...) *)
  fetch : string -> list string -> outcome (list FetchedTranscriptSnippet);
  YouTube : string -> outcome YouTubeObject;
  (* TextBlob(text).sentiment.polarity *)
  polarity_of : string -> outcome float;
  (* the paths [os.remove] is refused on (PermissionError) *)
  remove_denied : string -> bool
}.

(** ** The operating system *)

(** [os.path.exists(path)] *)
Definition os_path_exists (path : string) : M bool :=
  fun w => (Ok (bool_decide (path ∈ files w)), record (EvExists path) w).

(** [os.remove(path)]: the file is gone afterwards, unless the call raises
    (no such file, or removal refused). *)
Definition os_remove (E : env) (path : string) : M unit :=
  fun w =>
    let w1 := record (EvRemove path) w in
    if bool_decide (path ∈ files w) then
      if remove_denied E path
      then (Raise (Exn PermissionError path), w1)
      else (Ok tt, World (files w ∖ {[path]}) (log w1))
    else (Raise (Exn FileNotFoundError path), w1).

(** [audio_stream.download(filename=filename)].  The path returned is the
    path written, here the file name itself. *)
Definition stream_download (stream : Stream) (filename : string) : M string :=
  fun w =>
    let w1 := record (EvDownload filename) w in
    let written := World (files w ∪ {[filename]}) (log w1) in
    match download stream filename with
    | Downloaded => (Ok filename, written)
    | DownloadFailed file_left e => (Raise e, if file_left then written else w1)
    end.

(** ** get_transcript *)

(** [video_url.split("=")[-1] if "=" in video_url else video_url.split("/")[-1]] *)
Definition video_id_of (video_url : string) : outcome string :=
  if contains "=" video_url
  then index_last (split video_url "=")
  else index_last (split video_url "/").

Definition languages : list string := ["en"; "en-US"; "en-GB"].

Definition temp_audio : string := "temp_audio.mp4".

(** [None] is "no transcript". *)
Definition get_transcript (E : env) (video_url : string) : M (option string) :=
  video_id ← lift (video_id_of video_url);
  (* Method 1: youtube-transcript-api *)
  try_except
    (transcript_list ← call (EvFetch video_id languages)
                            (fetch E video_id languages);
     let transcript_text := join " " (text <$> transcript_list) in
     mret (Some transcript_text))
    is_Exception
    (λ e,
      (* Method 2: pytube + Whisper *)
      match whisper_model E with
      | None => mret None
      | Some model =>
          try_except
            (yt ← call (EvYouTube video_url) (YouTube E video_url);
             audio_stream ← call EvGetAudioOnly (get_audio_only yt);
             match audio_stream with
             | None => mret None
             | Some stream =>
                 audio_file ← stream_download stream temp_audio;
                 result ← call (EvTranscribe audio_file) (model audio_file);
                 transcript_text ← lift (getitem result "text");
                 try_except (os_remove E audio_file) anything (λ _, mret tt);;
                 mret (Some transcript_text)
             end)
            is_Exception
            (λ e2,
              try_except
                (present ← os_path_exists temp_audio;
                 if (present : bool) then os_remove E temp_audio else mret tt)
                anything (λ _, mret tt);;
              mret None)
      end).

(** ** get_insights *)

(** The values stored in the insight dictionary. *)
Inductive value :=
| VNone
| VStr (s : string)
| VFloat (x : float)
| VDict (d : gmap string value)
| VList (l : list (string * string)).

(** The first loop: the spans with a kept label, as (text, label) pairs. *)
Definition kept_labels : list string := ["PERSON"; "ORG"; "GPE"; "PRODUCT"].

Definition collect_entities (ents : list Span) : list (string * string) :=
  foldl (λ entities ent,
           if bool_decide (label_ ent ∈ kept_labels)
           then entities ++ [(ent_text ent, label_ ent)]
           else entities)
        [] ents.

(** The second loop: duplicates removed, first occurrences kept in order.
    The state is the pair of [seen] and [unique_entities]; [dedup_step] is
    the body of the loop. *)
Definition dedup_step
    (st : gset (string * string) * list (string * string))
    (entity : string * string)
    : gset (string * string) * list (string * string) :=
  let '(seen, unique_entities) := st in
  if bool_decide (entity ∈ seen)
  then (seen, unique_entities)
  else (seen ∪ {[entity]}, unique_entities ++ [entity]).

Definition remove_duplicates (entities : list (string * string))
    : list (string * string) :=
  (foldl dedup_step (∅, []) entities).2.

Definition sentiment_label (polarity : float) : string :=
  if (0.1 <? polarity)%float then "Positive"
  else if (polarity <? -0.1)%float then "Negative"
  else "Neutral".

Definition get_insights (E : env) (full_transcript : option string)
    : M (gmap string value) :=
  match full_transcript with
  | None | Some EmptyString => mret ∅
  | Some full_transcript =>
      let insights : gmap string value := ∅ in
      (* Insight 1: sentiment *)
      insights ←
        try_except
          (polarity ← call (EvTextBlob full_transcript)
                           (polarity_of E full_transcript);
           mret (<["sentiment" :=
                     VDict {[ "label" := VStr (sentiment_label polarity);
                              "score" := VFloat (round polarity 3) ]}]>
                   insights))
          is_Exception
          (λ e, mret (<["sentiment" := VNone]> insights));
      (* Insight 2: summarization *)
      insights ←
        match summarizer E with
        | Some summarizer =>
            try_except
              (let transcript_snippet := take_str 1000 full_transcript in
               summary_result ← call (EvSummarizer transcript_snippet 150 30 false)
                                     (summarizer transcript_snippet 150 30 false)%Z;
               first ← lift (index_first summary_result);
               summary_text ← lift (getitem first "summary_text");
               mret (<["summary" := VStr summary_text]> insights))
              is_Exception
              (λ e, mret (<["summary" := VNone]> insights))
        | None => mret (<["summary" := VNone]> insights)
        end;
      (* Insight 3: named entities *)
      insights ←
        match nlp E with
        | Some nlp =>
            try_except
              (ents ← call (EvNlp full_transcript) (nlp full_transcript);
               let entities := collect_entities ents in
               let unique_entities := remove_duplicates entities in
               mret (<["entities" := VList unique_entities]> insights))
              is_Exception
              (λ e, mret (<["entities" := VList []]> insights))
        | None => mret (<["entities" := VList []]> insights)
        end;
      mret insights
  end.

(** [insights.get(key, default)], as the caller reads the bundle. *)
Definition dict_get (insights : gmap string value) (key : string)
    (default : value) : value :=
  match insights !! key with
  | Some v => v
  | None => default
  end.

(** ** Vocabulary of the statements about [get_transcript] *)

(** The calls that belong to the speech-to-text fallback. *)
Definition fallback_event (ev : event) : bool :=
  match ev with
  | EvYouTube _ | EvGetAudioOnly | EvDownload _ | EvTranscribe _
  | EvExists _ | EvRemove _ => true
  | _ => false
  end.

(** The calls that write a file. *)
Definition creates_file (ev : event) : bool :=
  match ev with
  | EvDownload _ => true
  | _ => false
  end.

(** The audio stream the fallback finds: [YouTube(video_url)] followed by
    [yt.streams.get_audio_only()]. *)
Definition find_audio_stream (E : env) (video_url : string)
    : outcome (option Stream) :=
  match YouTube E video_url with
  | Ok yt => get_audio_only yt
  | Raise e => Raise e
  end.


(** What the fallback returns: the text of the transcription when the
    stream is found, the download succeeds and the model answers with a
    text; nothing on every other path. *)
Definition fallback_result (model : string -> outcome (gmap string string))
    (found : outcome (option Stream)) : option string :=
  match found with
  | Ok (Some stream) =>
      match download stream temp_audio with
      | Downloaded =>
          match model temp_audio with
          | Ok result => result !! "text"
          | Raise _ => None
          end
      | DownloadFailed _ _ => None
      end
  | _ => None
  end.



(** ** Vocabulary of the statements about [get_insights] *)

Definition sentiment_of (polarity : float) : value :=
  VDict {[ "label" := VStr (sentiment_label polarity);
           "score" := VFloat (round polarity 3) ]}.

(** What each analysis contributes, read off the answer of its own
    collaborator only. *)
Definition sentiment_field (E : env) (t : string) : value :=
  match polarity_of E t with
  | Ok polarity => sentiment_of polarity
  | Raise _ => VNone
  end.

Definition summarizer_answer (E : env) (t : string)
    : option (outcome (list (gmap string string))) :=
  match summarizer E with
  | Some summarizer => Some (summarizer (take_str 1000 t) 150 30 false)%Z
  | None => None
  end.

Definition summary_field (E : env) (t : string) : value :=
  match summarizer_answer E t with
  | Some (Ok (first :: _)) =>
      match first !! "summary_text" with
      | Some summary_text => VStr summary_text
      | None => VNone
      end
  | _ => VNone
  end.

Definition nlp_answer (E : env) (t : string) : option (outcome (list Span)) :=
  match nlp E with
  | Some nlp => Some (nlp t)
  | None => None
  end.

Definition entities_field (E : env) (t : string) : value :=
  match nlp_answer E t with
  | Some (Ok ents) => VList (remove_duplicates (collect_entities ents))
  | _ => VList []
  end.

(** The collaborator calls of one run: the scorer always, the summariser
    and the tagger when their model is loaded. *)
Definition analyses_log (E : env) (t : string) : list event :=
  [EvTextBlob t]
  ++ match summarizer E with
     | Some _ => [EvSummarizer (take_str 1000 t) 150 30 false]
     | None => []
     end
  ++ match nlp E with
     | Some _ => [EvNlp t]
     | None => []
     end.

Definition answer_raises_only_Exception {A} (o : option (outcome A)) : bool :=
  match o with
  | Some o => raises_only_Exception o
  | None => true
  end.

(** Whatever the three collaborators raise on [t] is an [Exception]. *)
Definition analyses_raise_only_Exception (E : env) (t : string) : bool :=
  raises_only_Exception (polarity_of E t)
  && answer_raises_only_Exception (summarizer_answer E t)
  && answer_raises_only_Exception (nlp_answer E t).

(** The tagger's output as (text, label) pairs. *)
Definition pair_of (ent : Span) : string * string := (ent_text ent, label_ ent).

Definition kept (entity : string * string) : Prop := entity.2 ∈ kept_labels.

(** The first occurrence of [x] in [l] comes before any occurrence of [y]. *)
Definition first_before {A} (x y : A) (l : list A) : Prop :=
  x ≠ y ∧ ∃ l1 l2, l = l1 ++ x :: l2 ∧ (x ∉ l1) ∧ (y ∉ l1).

(** The invariant of the second loop once the prefix [done] of its input
    has been read. *)
Record dedup_inv (done : list (string * string))
    (st : gset (string * string) * list (string * string)) : Prop := {
  inv_seen : ∀ x, x ∈ st.1 ↔ x ∈ st.2;
  inv_nodup : NoDup st.2;
  inv_elems : ∀ x, x ∈ st.2 ↔ x ∈ done;
  inv_order : ∀ i j x y,
    st.2 !! i = Some x → st.2 !! j = Some y → i < j → first_before x y done
}.

(** The empty-transcript bundle as the claim words it. *)
Definition has_no_sentiment (insights : gmap string value) : Prop :=
  insights !! "sentiment" = None ∨ insights !! "sentiment" = Some VNone.

Definition has_no_summary (insights : gmap string value) : Prop :=
  insights !! "summary" = None ∨ insights !! "summary" = Some VNone.

Definition has_empty_entity_list (insights : gmap string value) : Prop :=
  insights !! "entities" = Some (VList []).

(** A transcript that [if not full_transcript] rejects. *)
Definition is_empty_transcript (full_transcript : option string) : Prop :=
  full_transcript = None ∨ full_transcript = Some EmptyString.

End Main.

(* ===================================================================== *)
(** * src/scripts/fetch_hf_paper.py *)
(* ===================================================================== *)

Module FetchHfPaper.

(** A decoded JSON document. *)
Inductive json :=
| JNull
| JBool (b : bool)
| JInt (n : Z)
| JFloat (x : float)
| JString (s : string)
| JArray (items : list json)
| JObject (members : list (string * json)).

(** A [requests.Response]: its status code and what [response.json()]
    gives. *)
Record Response := MkResponse {
  status_code : Z;
  json_body : outcome json
}.

(** [self.session]: what [session.get(url, timeout=...)] answers. *)
Record Session := MkSession {
  session_get : string -> Z -> outcome Response
}.

Definition BASE_URL : string := "https://huggingface.co/api".

Definition clean_id (arxiv_id : string) : string :=
  replace (replace arxiv_id "arxiv:" "") "arXiv:" "".

Definition endpoints (arxiv_id : string) : list string :=
  [ BASE_URL +:+ "/papers/" +:+ clean_id arxiv_id;
    BASE_URL +:+ "/papers/arxiv:" +:+ clean_id arxiv_id;
    BASE_URL +:+ "/papers/arXiv:" +:+ clean_id arxiv_id ].

(** How one turn of the [for] loop ends: with the function's [return], or
    by going on to the next endpoint. *)
Inductive flow (A : Type) :=
| Return (a : A)
| Continue.
Arguments Return {A} a.
Arguments Continue {A}.

(** The body of the loop, for one endpoint. *)
Definition try_endpoint (self : Session) (endpoint : string)
    : M (flow (option json)) :=
  try_except
    (response ← call (EvGet endpoint 10) (session_get self endpoint 10);
     if (status_code response =? 200)%Z then
       body ← lift (json_body response);
       mret (Return (Some body))
     else if (status_code response =? 404)%Z then
       mret Continue
     else
       mret Continue)
    is_RequestException
    (λ e, mret Continue).

(** [for endpoint in endpoints: ...] followed by [return None]. *)
Fixpoint try_endpoints (self : Session) (endpoints : list string)
    : M (option json) :=
  match endpoints with
  | [] => mret None
  | endpoint :: rest =>
      turn ← try_endpoint self endpoint;
      match turn with
      | Return result => mret result
      | Continue => try_endpoints self rest
      end
  end.

Definition fetch_paper_metadata (self : Session) (arxiv_id : string)
    : M (option json) :=
  try_endpoints self (endpoints arxiv_id).

(** ** Vocabulary of the statements about [fetch_paper_metadata] *)

Definition responds_200 (self : Session) (endpoint : string) : bool :=
  match session_get self endpoint 10 with
  | Ok response => (status_code response =? 200)%Z
  | Raise _ => false
  end.

(** Every failure of [session.get] on these endpoints is a
    [RequestException]. *)
Definition fails_with_RequestException (self : Session)
    (endpoints : list string) : bool :=
  forallb (λ endpoint,
             match session_get self endpoint 10 with
             | Ok _ => true
             | Raise e => is_RequestException e
             end)
          endpoints.

Definition queries (endpoints : list string) : list event :=
  (λ endpoint, EvGet endpoint 10) <$> endpoints.

End FetchHfPaper.

Import Main FetchHfPaper.

(* ===================================================================== *)
(** * Scenarios: concrete collaborators *)
(* ===================================================================== *)

Module Scenario.

Definition fresh : world := World ∅ [].

Definition no_captions : exn := Exn RuntimeError "Subtitles are disabled".

Definition captions : list FetchedTranscriptSnippet :=
  [ Snippet "never gonna" 0 1.5; Snippet "give you up" 1.5 2 ].

Definition tagged : list Span :=
  [ MkSpan "Paris" "GPE"; MkSpan "yesterday" "DATE";
    MkSpan "John Smith" "PERSON"; MkSpan "Paris" "GPE";
    MkSpan "Paris" "PERSON" ].

(** Captions are served; every model is loaded and answers. *)
Definition all_fine : env := {|
  nlp := Some (λ _, Ok tagged);
  summarizer := Some (λ _ _ _ _, Ok [ {[ "summary_text" := "A trip." ]} ]);
  whisper_model := Some (λ _, Ok {[ "text" := "spoken words" ]});
  fetch := λ _ _, Ok captions;
  YouTube := λ _, Ok (MkYouTube (Ok (Some (MkStream (λ _, Downloaded)))));
  polarity_of := λ _, Ok 0.6%float;
  remove_denied := λ _, false
|}.

(** No captions; the fallback downloads and transcribes the audio. *)
Definition spoken : env := {|
  nlp := None;
  summarizer := None;
  whisper_model := Some (λ _, Ok {[ "text" := "spoken words" ]});
  fetch := λ _ _, Raise no_captions;
  YouTube := λ _, Ok (MkYouTube (Ok (Some (MkStream (λ _, Downloaded)))));
  polarity_of := λ _, Ok 0%float;
  remove_denied := λ _, false
|}.

(** No captions and no speech-to-text model. *)
Definition no_whisper : env := {|
  nlp := None;
  summarizer := None;
  whisper_model := None;
  fetch := λ _ _, Raise no_captions;
  YouTube := λ _, Raise (Exn RuntimeError "unavailable");
  polarity_of := λ _, Ok 0%float;
  remove_denied := λ _, false
|}.



(** No captions; the audio is downloaded, the transcription fails and the
    temporary file cannot be removed. *)
Definition stuck_file : env := {|
  nlp := None;
  summarizer := None;
  whisper_model := Some (λ _, Raise (Exn RuntimeError "out of memory"));
  fetch := λ _ _, Raise no_captions;
  YouTube := λ _, Ok (MkYouTube (Ok (Some (MkStream (λ _, Downloaded)))));
  polarity_of := λ _, Ok 0%float;
  remove_denied := λ _, true
|}.

(** The scorer and the summariser fail, the tagger answers. *)
Definition two_failures : env := {|
  nlp := Some (λ _, Ok tagged);
  summarizer := Some (λ _ _ _ _, Raise (Exn RuntimeError "index out of range in self"));
  whisper_model := None;
  fetch := λ _ _, Raise no_captions;
  YouTube := λ _, Raise (Exn RuntimeError "unavailable");
  polarity_of := λ _, Raise (Exn RuntimeError "missing corpus");
  remove_denied := λ _, false
|}.

Definition video_url : string := "https://www.youtube.com/watch?v=dQw4w9WgXcQ".

Definition paper : json := JObject [("id", JString "2301.00001")].

(** The plain endpoint answers 404, the [arxiv:] one 200. *)
Definition hub : Session := {|
  session_get := λ url _,
    if decide (url = "https://huggingface.co/api/papers/2301.00001")
    then Ok (MkResponse 404 (Raise (Exn RequestException "not json")))
    else if decide (url = "https://huggingface.co/api/papers/arxiv:2301.00001")
    then Ok (MkResponse 200 (Ok paper))
    else Raise (Exn RequestException "connection reset")
|}.

End Scenario.

(* ===================================================================== *)
(** * src/main.py: the channel listing and the main program *)
(* ===================================================================== *)

Module MainProgram.

(** ** Collaborators *)

(** A video object of the channel listing; reading [video.video_id] may
    raise. *)
Record Video := MkVideo { video_id : outcome string }.

(** The object built by [Channel(channel_url)].  Iterating [c.videos]
    yields [videos] and then, when [videos_error] is set, raises. *)
Record ChannelObject := MkChannel {
  videos : list Video;
  videos_error : option exn
}.

(** What the program is run with: the collaborators of the resolver and
    of the extractor, the channel service, the [--channel] argument and the
    [YOUTUBE_CHANNEL_URL] variable of the environment. *)
Record program := Program {
  collaborators : env;
  Channel : string -> outcome ChannelObject;
  args_channel_url : option string;
  env_channel : option string
}.

(** ** get_channel_videos *)

(** [f"https://www.youtube.com/watch?v={video.video_id}"] *)
Definition watch_url (video_id : string) : string :=
  "https://www.youtube.com/watch?v=" +:+ video_id.

(** The [for video in c.videos] loop: a video whose identifier cannot be
    read is skipped by the bare [except]. *)
Fixpoint for_videos (videos : list Video) (video_urls : list string)
    : M (list string) :=
  match videos with
  | [] => mret video_urls
  | video :: rest =>
      video_urls ←
        try_except
          (id ← lift (video_id video);
           mret (video_urls ++ [watch_url id]))
          anything
          (λ _, mret video_urls);
      for_videos rest video_urls
  end.

Definition get_channel_videos (Channel : string -> outcome ChannelObject)
    (channel_url : string) : M (list string) :=
  try_except
    (c ← lift (Channel channel_url);
     video_urls ← for_videos (videos c) [];
     match videos_error c with
     | Some e => lift (Raise e)
     | None => mret video_urls
     end)
    is_Exception
    (λ e, mret []).

(** ** The main program *)

(** Truth value of an optional string: [None] and [""] are false. *)
Definition truthy (s : option string) : bool :=
  match s with
  | Some (String _ _) => true
  | _ => false
  end.

Definition default_channel : string := "https://www.youtube.com/@MrBeast".

(** [args.channel_url or env_channel or default_channel] *)
Definition CHANNEL_URL (P : program) : string :=
  match args_channel_url P, env_channel P with
  | Some (String a s), _ => String a s
  | _, Some (String a s) => String a s
  | _, _ => default_channel
  end.

(** How the program ends when no exception of a collaborator escapes:
    it runs to its end, leaves through [exit(status)], or dies on an
    [AttributeError] of its own report. *)
Inductive ending :=
| Completed
| SystemExit (status : Z)
| AttributeError (message : string).

(** [insights.get('sentiment', {}).get(key, 'N/A')].  Only a dictionary
    has a [get]; on [None], a string, a float or a list the attribute
    lookup raises [AttributeError]. *)
Definition sentiment_entry (insights : gmap string value) (key : string)
    : string + value :=
  match dict_get insights "sentiment" (VDict ∅) with
  | VDict sentiment => inr (dict_get sentiment key (VStr "N/A"))
  | VNone => inl "'NoneType' object has no attribute 'get'"
  | VStr _ => inl "'str' object has no attribute 'get'"
  | VFloat _ => inl "'float' object has no attribute 'get'"
  | VList _ => inl "'list' object has no attribute 'get'"
  end.

(** The entities the report lists: the first ten. *)
Definition listed (entities : list (string * string))
    : list (string * string) :=
  take 10 entities.

(** The report of one analysed video, as far as it can fail: the sentiment
    line reads the label and the score; the entities are read with [[]] as
    default and the summary with [None].  The answer is [None] on a bundle
    whose entities are not a list or whose summary is neither [None] nor a
    string: [get_insights] builds no such bundle and the report is not
    modelled there. *)
Definition report (insights : gmap string value) : option (string + unit) :=
  match sentiment_entry insights "label" with
  | inl message => Some (inl message)
  | inr _ =>
      match sentiment_entry insights "score" with
      | inl message => Some (inl message)
      | inr _ =>
          match dict_get insights "entities" (VList []),
                dict_get insights "summary" VNone with
          | VList _, (VNone | VStr _) => Some (inr tt)
          | _, _ => None
          end
      end
  end.

(** The loop over the videos.  A transcript is analysed when it is there
    and not empty.  The answer is [None] when the report is not modelled
    (see [report]). *)
Fixpoint process_videos (E : env) (video_urls : list string)
    : M (option ending) :=
  match video_urls with
  | [] => mret (Some Completed)
  | url :: rest =>
      transcript ← get_transcript E url;
      if truthy transcript then
        insights ← get_insights E transcript;
        match report insights with
        | Some (inl message) => mret (Some (AttributeError message))
        | Some (inr _) => process_videos E rest
        | None => mret None
        end
      else process_videos E rest
  end.

Definition main (P : program) : M (option ending) :=
  video_urls ← get_channel_videos (Channel P) (CHANNEL_URL P);
  match video_urls with
  | [] => mret (Some (SystemExit 1))
  | _ => process_videos (collaborators P) (take 3 video_urls)
  end.

(** ** Vocabulary of the statements *)

Definition is_fetch (ev : event) : bool :=
  match ev with
  | EvFetch _ _ => true
  | _ => false
  end.

Definition is_download (ev : event) : bool :=
  match ev with
  | EvDownload _ => true
  | _ => false
  end.

Definition is_transcribe (ev : event) : bool :=
  match ev with
  | EvTranscribe _ => true
  | _ => false
  end.

(** How often a kind of call occurs in a log. *)
Definition count (kind : event -> bool) (l : list event) : nat :=
  length (filter (λ ev, kind ev = true) l).

(** The identifiers that can be read, in the order of the listing. *)
Definition readable_ids (videos : list Video) : list string :=
  omap (λ video, match video_id video with
                 | Ok id => Some id
                 | Raise _ => None
                 end) videos.

(** What [get_channel_videos] lists: the watch URLs of the readable
    identifiers when the listing completes, nothing otherwise. *)
Definition listed_urls (Channel : string -> outcome ChannelObject)
    (channel_url : string) : list string :=
  match Channel channel_url with
  | Ok c =>
      match videos_error c with
      | None => watch_url <$> readable_ids (videos c)
      | Some _ => []
      end
  | Raise _ => []
  end.

(** What the channel service raises, if anything, while it is listed. *)
Definition listing_failure (Channel : string -> outcome ChannelObject)
    (channel_url : string) : option exn :=
  match Channel channel_url with
  | Ok c => videos_error c
  | Raise e => Some e
  end.

(** The caption request that [get_transcript] makes for a reference. *)
Definition fetch_of (video_url : string) : event :=
  match video_id_of video_url with
  | Ok video_id => EvFetch video_id languages
  | Raise _ => EvFetch EmptyString languages
  end.




Definition NoneType_has_no_get : string :=
  "'NoneType' object has no attribute 'get'".

End MainProgram.

(* ===================================================================== *)
(** * src/scripts/fetch_hf_paper.py: the searches and their aggregation *)
(* ===================================================================== *)

Module FetchResources.

(** The fetcher: its session for plain requests, and what
    [session.get(url, params=params, timeout=...)] answers. *)
Record Fetcher := MkFetcher {
  session : Session;
  session_get_params : string -> gmap string json -> Z -> outcome Response
}.

(** [{'search': f'arxiv:{clean_id}', 'limit': 50}] *)
Definition search_params (arxiv_id : string) : gmap string json :=
  {[ "search" := JString ("arxiv:" +:+ clean_id arxiv_id);
     "limit" := JInt 50 ]}.

(** [data if isinstance(data, list) else []] *)
Definition list_or_empty (data : json) : list json :=
  match data with
  | JArray items => items
  | _ => []
  end.

(** The three searches differ by the path of the endpoint only (and by the
    word of their warning); [search_by_paper] is their common body. *)
Definition search_by_paper (path : string) (self : Fetcher)
    (arxiv_id : string) : M (list json) :=
  turn ←
    try_except
      (let search_url := BASE_URL +:+ path in
       let params := search_params arxiv_id in
       response ← call (EvGet search_url 10)
                       (session_get_params self search_url params 10);
       if (status_code response =? 200)%Z then
         data ← lift (json_body response);
         mret (Return (list_or_empty data))
       else mret Continue)
      is_RequestException
      (λ e, mret Continue);
  match turn with
  | Return result => mret result
  | Continue => mret []
  end.

Definition search_models_by_paper : Fetcher -> string -> M (list json) :=
  search_by_paper "/models".

Definition search_datasets_by_paper : Fetcher -> string -> M (list json) :=
  search_by_paper "/datasets".

Definition search_spaces_by_paper : Fetcher -> string -> M (list json) :=
  search_by_paper "/spaces".

(** [None] of Python is the JSON [null]. *)
Definition json_of_option (o : option json) : json :=
  match o with
  | Some j => j
  | None => JNull
  end.

Definition fetch_all_resources (self : Fetcher) (arxiv_id : string)
    : M (gmap string json) :=
  paper_metadata ← fetch_paper_metadata (session self) arxiv_id;
  models ← search_models_by_paper self arxiv_id;
  datasets ← search_datasets_by_paper self arxiv_id;
  spaces ← search_spaces_by_paper self arxiv_id;
  mret ({[ "paper" := json_of_option paper_metadata;
           "models" := JArray models;
           "datasets" := JArray datasets;
           "spaces" := JArray spaces ]} : gmap string json).

(** ** Vocabulary of the statements *)

(** [old] occurs in [s]. *)
Fixpoint occurs (old s : string) : bool :=
  startswith old s
  || match s with
     | EmptyString => false
     | String _ s' => occurs old s'
     end.

(** What a search returns, read off the answer of the session. *)
Definition search_result (path : string) (self : Fetcher)
    (arxiv_id : string) : list json :=
  match session_get_params self (BASE_URL +:+ path)
          (search_params arxiv_id) 10 with
  | Ok response =>
      if (status_code response =? 200)%Z then
        match json_body response with
        | Ok data => list_or_empty data
        | Raise _ => []
        end
      else []
  | Raise _ => []
  end.

(** Every failure of the search request, and of the decoding of its
    answer, is a [RequestException]. *)
Definition search_fails_with_RequestException (path : string)
    (self : Fetcher) (arxiv_id : string) : bool :=
  match session_get_params self (BASE_URL +:+ path)
          (search_params arxiv_id) 10 with
  | Ok response =>
      if (status_code response =? 200)%Z then
        match json_body response with
        | Ok _ => true
        | Raise e => is_RequestException e
        end
      else true
  | Raise e => is_RequestException e
  end.

(** Every failure of the paper lookup on these endpoints, be it of the
    request or of the decoding of a 200 answer, is a [RequestException]. *)
Definition lookup_fails_with_RequestException (self : Session)
    (endpoints : list string) : bool :=
  forallb (λ endpoint,
             match session_get self endpoint 10 with
             | Ok response =>
                 if (status_code response =? 200)%Z then
                   match json_body response with
                   | Ok _ => true
                   | Raise e => is_RequestException e
                   end
                 else true
             | Raise e => is_RequestException e
             end)
          endpoints.

(** The three search requests, in the order they are made. *)
Definition searches : list event :=
  [ EvGet (BASE_URL +:+ "/models") 10;
    EvGet (BASE_URL +:+ "/datasets") 10;
    EvGet (BASE_URL +:+ "/spaces") 10 ].

End FetchResources.

(* ===================================================================== *)
(** * More scenarios *)
(* ===================================================================== *)

Module Demo.

Import MainProgram FetchResources.

(** Three videos; the identifier of the second cannot be read. *)
Definition listing : ChannelObject := {|
  videos := [ MkVideo (Ok "dQw4w9WgXcQ");
              MkVideo (Raise (Exn KeyboardInterrupt "interrupted"));
              MkVideo (Ok "9bZkp7q19f0") ];
  videos_error := None
|}.

(** Captions are served, the scorer fails, the models are not loaded. *)
Definition no_scorer : env := {|
  nlp := None;
  summarizer := None;
  whisper_model := None;
  fetch := λ _ _, Ok Scenario.captions;
  YouTube := λ _, Raise (Exn RuntimeError "unavailable");
  polarity_of := λ _, Raise (Exn RuntimeError "missing corpus");
  remove_denied := λ _, false
|}.

(** The scorer is interrupted. *)
Definition interrupted_scorer : env := {|
  nlp := None;
  summarizer := None;
  whisper_model := None;
  fetch := λ _ _, Ok Scenario.captions;
  YouTube := λ _, Raise (Exn RuntimeError "unavailable");
  polarity_of := λ _, Raise (Exn KeyboardInterrupt "interrupted");
  remove_denied := λ _, false
|}.

(** The download succeeds, the transcription is interrupted. *)
Definition interrupted : env := {|
  nlp := None;
  summarizer := None;
  whisper_model := Some (λ _, Raise (Exn KeyboardInterrupt "interrupted"));
  fetch := λ _ _, Raise Scenario.no_captions;
  YouTube := λ _, Ok (MkYouTube (Ok (Some (MkStream (λ _, Downloaded)))));
  polarity_of := λ _, Ok 0%float;
  remove_denied := λ _, false
|}.

Definition unreachable : program := {|
  collaborators := Scenario.all_fine;
  Channel := λ _, Raise (Exn RuntimeError "channel not found");
  args_channel_url := None;
  env_channel := Some EmptyString
|}.

Definition failing_report : program := {|
  collaborators := no_scorer;
  Channel := λ _, Ok listing;
  args_channel_url := Some "https://www.youtube.com/@veritasium";
  env_channel := None
|}.

(** The model search answers an array, the dataset search an object, the
    space search fails. *)
Definition hub : Fetcher := {|
  session := Scenario.hub;
  session_get_params := λ url _ _,
    if decide (url = "https://huggingface.co/api/models")
    then Ok (MkResponse 200 (Ok (JArray [JObject [("id", JString "org/model")]])))
    else if decide (url = "https://huggingface.co/api/datasets")
    then Ok (MkResponse 200 (Ok (JObject [("error", JString "bad query")])))
    else Raise (Exn RequestException "timed out")
|}.

(** The plain endpoint answers 200 with a body that is not JSON, the
    other endpoints answer the paper. *)
Definition garbled : Session := {|
  session_get := λ url _,
    if decide (url = "https://huggingface.co/api/papers/2301.00001")
    then Ok (MkResponse 200 (Raise (Exn RequestException "Expecting value")))
    else Ok (MkResponse 200 (Ok Scenario.paper))
|}.


End Demo.

(* ===================================================================== *)
(** * Facts about the runtime *)
(* ===================================================================== *)

Module PyFacts.

(** [round] agrees with CPython on a few inputs, ties included. *)
Example round_down : round 0.12345%float 3 = 0.123%float.
Proof. vm_compute. reflexivity. Qed.

Example round_up : round 0.9876%float 3 = 0.988%float.
Proof. vm_compute. reflexivity. Qed.

Example round_tie_to_even_down : round 0.0625%float 3 = 0.062%float.
Proof. vm_compute. reflexivity. Qed.

Example round_tie_to_even_up : round 0.1875%float 3 = 0.188%float.
Proof. vm_compute. reflexivity. Qed.

Example round_negative : round (-0.4567)%float 3 = (-0.457)%float.
Proof. vm_compute. reflexivity. Qed.

Example round_binary_value : round 2.675%float 2 = 2.67%float.
Proof. vm_compute. reflexivity. Qed.

Example round_huge : round 1e300%float 3 = 1e300%float.
Proof. vm_compute. reflexivity. Qed.

(** [round_half_even] is within one half of the exact quotient. *)
Lemma round_half_even_nearest (num den : Z) :
  (0 < den)%Z ->
  (Z.abs (2 * num - 2 * den * round_half_even num den) <= den)%Z.
Proof.
  intros Hden. unfold round_half_even. cbv zeta.
  pose proof (Z.div_mod num den ltac:(lia)) as Hdiv.
  pose proof (Z.mod_pos_bound num den Hden) as Hmod.
  generalize dependent (num mod den)%Z. generalize dependent (num / den)%Z.
  intros q r Hdiv Hmod. subst num.
  assert (Hlow : (2 * (den * q + r) - 2 * den * q = 2 * r)%Z) by ring.
  assert (Hhigh : (2 * (den * q + r) - 2 * den * (q + 1) = 2 * r - 2 * den)%Z)
    by ring.
  destruct (2 * r ?= den)%Z eqn:Hcmp.
  - apply Z.compare_eq in Hcmp.
    destruct (Z.even q); [rewrite Hlow|rewrite Hhigh]; lia.
  - rewrite Z.compare_lt_iff in Hcmp. rewrite Hlow. lia.
  - rewrite Z.compare_gt_iff in Hcmp. rewrite Hhigh. lia.
Qed.

Example split_query : split "watch?v=a=b" "=" = ["watch?v"; "a"; "b"].
Proof. reflexivity. Qed.

Example split_trailing : split "a/b/" "/" = ["a"; "b"; ""].
Proof. reflexivity. Qed.

Example replace_prefix :
  replace (replace "arXiv:2301.00001" "arxiv:" "") "arXiv:" "" = "2301.00001".
Proof. reflexivity. Qed.

Example replace_no_overlap : replace "aaa" "aa" "b" = "ba".
Proof. reflexivity. Qed.

Example join_spaces : join " " ["a"; "b"; "c"] = "a b c".
Proof. reflexivity. Qed.

Section Split.
Context (sep : ascii).

Lemma split_no_sep (s : string) :
  contains sep s = false → split s sep = [s].
Proof.
  induction s as [|a s IH]; simpl; [done|].
  case_decide; [done|]. intros Hc. by rewrite IH.
Qed.

Lemma split_with_sep (s : string) :
  contains sep s = true → ∃ p ps, split s sep = p :: ps ∧ ps ≠ [].
Proof.
  induction s as [|a s IH]; simpl; [done|].
  case_decide as Ha.
  - intros _. destruct (contains sep s) eqn:Hc.
    + destruct (IH eq_refl) as (p & ps & -> & _). by eexists _, _.
    + rewrite split_no_sep by done. by eexists _, _.
  - intros Hc. destruct (IH Hc) as (p & ps & -> & Hps). by eexists _, _.
Qed.

(** The last piece of a split is the text after the last separator, and
    the whole string when there is no separator. *)
Lemma last_split (s : string) :
  ∃ piece, last (split s sep) = Some piece
    ∧ contains sep piece = false
    ∧ (contains sep s = true → ∃ pre, s = pre +:+ String sep piece)
    ∧ (contains sep s = false → piece = s).
Proof.
  induction s as [|a s (piece & Hlast & Hfree & Hyes & Hno)]; simpl.
  { exists EmptyString. by repeat split. }
  case_decide as Ha.
  - subst a. exists piece. repeat split; [|done| |done].
    + destruct (split s sep) eqn:Hs; [done|]. by rewrite last_cons_cons.
    + intros _. destruct (contains sep s) eqn:Hc.
      * destruct (Hyes eq_refl) as [pre ->]. by exists (String sep pre).
      * rewrite (Hno eq_refl). by exists EmptyString.
  - destruct (contains sep s) eqn:Hc.
    + destruct (split_with_sep s Hc) as (p & ps & Hs & Hps).
      exists piece. rewrite Hs in *. repeat split; [|done| |done].
      * destruct ps as [|q ps]; [done|]. by rewrite last_cons_cons in *.
      * intros _. destruct (Hyes eq_refl) as [pre ->]. by exists (String a pre).
    + rewrite split_no_sep by done. exists (String a s). simpl.
      rewrite decide_False by done. by repeat split.
Qed.

End Split.

End PyFacts.

(* ===================================================================== *)
(** * get_transcript *)
(* ===================================================================== *)

Module TranscriptFacts.

Import PyFacts.

(** Unfold one layer of the monad. *)
Ltac run_monad :=
  unfold mbind, M_bind, mret, M_ret, lift, call, try_except, anything in *;
  simpl in *.

(** The file written by the download is there when the clean-up looks. *)
Ltac present :=
  repeat (simpl; rewrite bool_decide_eq_true_2 by set_solver); simpl.


(** The identifier is always defined: [split] never gives an empty list. *)
Lemma video_id_of_defined (video_url : string) :
  ∃ video_id, video_id_of video_url = Ok video_id.
Proof.
  unfold video_id_of, index_last.
  destruct (contains "=" video_url).
  - destruct (last_split "=" video_url) as (piece & -> & _). by exists piece.
  - destruct (last_split "/" video_url) as (piece & -> & _). by exists piece.
Qed.

(** Whatever happens next, the first call of [get_transcript] is the
    caption request for the derived identifier. *)
Lemma fetch_comes_first (E : env) (video_url video_id : string) (w : world) :
  video_id_of video_url = Ok video_id →
  ∃ rest, log (get_transcript E video_url w).2
          = log w ++ EvFetch video_id languages :: rest.
Proof.
  intros Hv. unfold get_transcript. run_monad. rewrite Hv.
  unfold stream_download, os_remove, os_path_exists, getitem, record.
  repeat
    (simpl;
     match goal with
     | |- context [match ?x with _ => _ end] =>
         lazymatch x with
         | context [match _ with _ => _ end] => fail
         | _ => destruct x
         end
     | |- context [if ?x then _ else _] =>
         lazymatch x with
         | context [if _ then _ else _] => fail
         | context [match _ with _ => _ end] => fail
         | _ => destruct x
         end
     end);
    simpl; rewrite <- ?app_assoc; simpl; eexists; reflexivity.
Qed.

(** C1.  When the caption service answers with a list of segments,
    [get_transcript] returns their texts joined by single spaces, in order,
    and does nothing else: the caption request is the only call it makes,
    so no step of the speech-to-text fallback runs and no file is touched. *)
Theorem captions_returned_without_fallback
    (E : env) (video_url video_id : string) (w : world)
    (segments : list FetchedTranscriptSnippet) :
  video_id_of video_url = Ok video_id →
  fetch E video_id languages = Ok segments →
  ∃ w',
    get_transcript E video_url w
    = (Ok (Some (join " " (text <$> segments))), w')
    ∧ files w' = files w
    ∧ log w' = log w ++ [EvFetch video_id languages]
    ∧ ∀ ev, ev ∈ log w' → ev ∈ log w ∨ fallback_event ev = false.
Proof.
  intros Hv Hf. exists (record (EvFetch video_id languages) w).
  split; [|split; [done|split; [done|]]].
  - unfold get_transcript. run_monad. by rewrite Hv, Hf.
  - simpl. intros ev [Hold|Hnew%list_elem_of_singleton]%elem_of_app.
    + by left.
    + right. by subst ev.
Qed.

Lemma captions_returned_without_fallback_witness :
  video_id_of Scenario.video_url = Ok "dQw4w9WgXcQ"
  ∧ fetch Scenario.all_fine "dQw4w9WgXcQ" languages = Ok Scenario.captions
  ∧ ∃ w',
      get_transcript Scenario.all_fine Scenario.video_url Scenario.fresh
      = (Ok (Some "never gonna give you up"), w')
      ∧ files w' = files Scenario.fresh
      ∧ log w' = log Scenario.fresh ++ [EvFetch "dQw4w9WgXcQ" languages]
      ∧ ∀ ev, ev ∈ log w' → ev ∈ log Scenario.fresh ∨ fallback_event ev = false.
Proof.
  split; [reflexivity|]. split; [reflexivity|].
  apply (captions_returned_without_fallback Scenario.all_fine Scenario.video_url
           "dQw4w9WgXcQ" Scenario.fresh Scenario.captions); reflexivity.
Defined.

(** C6.  When the caption request fails and either no speech-to-text model
    is loaded or the video has no audio stream, [get_transcript] returns no
    transcript.  No call of that run writes a file and the file system is
    left as it was, so no temporary audio file of that call remains. *)
Theorem no_transcript_and_no_temp_file
    (E : env) (video_url video_id : string) (w : world) (e : exn) :
  video_id_of video_url = Ok video_id →
  fetch E video_id languages = Raise e →
  is_Exception e = true →
  (whisper_model E = None
   ∨ ∃ yt, YouTube E video_url = Ok yt ∧ get_audio_only yt = Ok None) →
  ∃ new,
    get_transcript E video_url w = (Ok None, World (files w) (log w ++ new))
    ∧ Forall (λ ev, creates_file ev = false) new
    ∧ (temp_audio ∉ files w →
       temp_audio ∉ files (get_transcript E video_url w).2).
Proof.
  intros Hv Hf He Hcase. unfold get_transcript. run_monad. rewrite Hv, Hf, He.
  destruct (whisper_model E) as [model|] eqn:Hm.
  - destruct Hcase as [?|(yt & Hy & Hs)]; [done|]. rewrite Hy, Hs. simpl.
    exists [EvFetch video_id languages; EvYouTube video_url; EvGetAudioOnly].
    unfold record. simpl. rewrite <- !app_assoc. simpl.
    split; [done|]. split; [|done]. by repeat constructor.
  - exists [EvFetch video_id languages]. split; [done|]. split; [|done].
    by repeat constructor.
Qed.

Lemma no_transcript_and_no_temp_file_witness :
  video_id_of Scenario.video_url = Ok "dQw4w9WgXcQ"
  ∧ fetch Scenario.no_whisper "dQw4w9WgXcQ" languages = Raise Scenario.no_captions
  ∧ is_Exception Scenario.no_captions = true
  ∧ whisper_model Scenario.no_whisper = None
  ∧ ∃ new,
      get_transcript Scenario.no_whisper Scenario.video_url Scenario.fresh
      = (Ok None, World (files Scenario.fresh) (log Scenario.fresh ++ new))
      ∧ Forall (λ ev, creates_file ev = false) new
      ∧ (temp_audio ∉ files Scenario.fresh →
         temp_audio ∉ files (get_transcript Scenario.no_whisper
                               Scenario.video_url Scenario.fresh).2).
Proof.
  split; [reflexivity|]. split; [reflexivity|]. split; [reflexivity|].
  split; [reflexivity|].
  apply (no_transcript_and_no_temp_file Scenario.no_whisper Scenario.video_url
           "dQw4w9WgXcQ" Scenario.fresh Scenario.no_captions);
    [reflexivity|reflexivity|reflexivity|left; reflexivity].
Defined.




Example cleanup_after_success :
  get_transcript Scenario.spoken Scenario.video_url Scenario.fresh
  = (Ok (Some "spoken words"),
     World ∅ [ EvFetch "dQw4w9WgXcQ" languages; EvYouTube Scenario.video_url;
               EvGetAudioOnly; EvDownload temp_audio;
               EvTranscribe temp_audio; EvRemove temp_audio ]).
Proof. vm_compute. reflexivity. Qed.

Example cleanup_refused_after_failure :
  get_transcript Scenario.stuck_file Scenario.video_url Scenario.fresh
  = (Ok None,
     World {[ temp_audio ]}
           [ EvFetch "dQw4w9WgXcQ" languages; EvYouTube Scenario.video_url;
             EvGetAudioOnly; EvDownload temp_audio;
             EvTranscribe temp_audio; EvExists temp_audio;
             EvRemove temp_audio ]).
Proof. vm_compute. reflexivity. Qed.

(** C8.  The identifier is always defined.  For a reference that contains
    ['='] it is the text after the last ['=']; otherwise it is the text
    after the last ['/'], the whole reference when there is none.  It is
    the identifier the caption request is made with, and that request is
    the first call of every run. *)
Theorem video_id_after_last_separator
    (E : env) (video_url : string) (w : world) :
  ∃ video_id,
    video_id_of video_url = Ok video_id
    ∧ (contains "=" video_url = true →
       contains "=" video_id = false
       ∧ ∃ pre, video_url = pre +:+ String "=" video_id)
    ∧ (contains "=" video_url = false →
       contains "/" video_id = false
       ∧ (contains "/" video_url = true →
          ∃ pre, video_url = pre +:+ String "/" video_id)
       ∧ (contains "/" video_url = false → video_id = video_url))
    ∧ ∃ rest, log (get_transcript E video_url w).2
              = log w ++ EvFetch video_id languages :: rest.
Proof.
  destruct (contains "=" video_url) eqn:Heq.
  - destruct (last_split "=" video_url) as (piece & Hlast & Hfree & Hyes & _).
    assert (Hv : video_id_of video_url = Ok piece)
      by (unfold video_id_of, index_last; by rewrite Heq, Hlast).
    exists piece. split; [done|]. split; [auto|]. split; [done|].
    by apply fetch_comes_first.
  - destruct (last_split "/" video_url) as (piece & Hlast & Hfree & Hyes & Hno).
    assert (Hv : video_id_of video_url = Ok piece)
      by (unfold video_id_of, index_last; by rewrite Heq, Hlast).
    exists piece. split; [done|]. split; [done|]. split; [auto|].
    by apply fetch_comes_first.
Qed.

Example video_id_watch_url :
  video_id_of "https://www.youtube.com/watch?v=dQw4w9WgXcQ" = Ok "dQw4w9WgXcQ".
Proof. reflexivity. Qed.

Example video_id_short_url :
  video_id_of "https://youtu.be/dQw4w9WgXcQ" = Ok "dQw4w9WgXcQ".
Proof. reflexivity. Qed.

Example video_id_with_later_parameter :
  video_id_of "https://www.youtube.com/watch?v=dQw4w9WgXcQ&t=42s" = Ok "42s".
Proof. reflexivity. Qed.

Example video_id_bare : video_id_of "dQw4w9WgXcQ" = Ok "dQw4w9WgXcQ".
Proof. reflexivity. Qed.

End TranscriptFacts.

(* ===================================================================== *)
(** * get_insights *)
(* ===================================================================== *)

Module InsightFacts.

(** ** The run of a non-empty transcript *)

(** With collaborators that raise nothing outside [Exception], the run
    returns the three-entry dictionary and logs the calls of the analyses
    whose model is loaded. *)
Lemma get_insights_run (E : env) (t : string) (w : world) :
  t ≠ EmptyString →
  analyses_raise_only_Exception E t = true →
  get_insights E (Some t) w
  = (Ok (<["entities" := entities_field E t]>
          (<["summary" := summary_field E t]>
            (<["sentiment" := sentiment_field E t]> ∅))),
     World (files w) (log w ++ analyses_log E t)).
Proof.
  intros Ht Hexc. destruct t as [|a t]; [done|].
  unfold analyses_raise_only_Exception in Hexc.
  apply andb_prop in Hexc as [Hexc Hn]. apply andb_prop in Hexc as [Hp Hs].
  unfold get_insights, sentiment_field, summary_field, entities_field,
    summarizer_answer, nlp_answer, analyses_log, sentiment_of in *.
  set (full := String a t) in *. clearbody full.
  unfold mbind, M_bind, mret, M_ret, lift, call, try_except, record,
    index_first, getitem.
  destruct (polarity_of E full) as [p|e1]; cbn [raises_only_Exception] in Hp;
    [|rewrite Hp];
    (destruct (summarizer E) as [sm|];
      [destruct (sm (take_str 1000 full) 150%Z 30%Z false) as [[|first res]|e2];
        cbn [answer_raises_only_Exception raises_only_Exception] in Hs;
         [| destruct (first !! "summary_text") | rewrite Hs] |]);
    (destruct (nlp E) as [tg|];
      [destruct (tg full) as [ents|e3];
        cbn [answer_raises_only_Exception raises_only_Exception] in Hn;
        [|rewrite Hn]|]);
    cbn [files log is_Exception exn_class]; rewrite <- ?app_assoc; reflexivity.
Qed.

Section Lookups.
Context (a b c : value).

Let bundle : gmap string value :=
  <["entities" := c]> (<["summary" := b]> (<["sentiment" := a]> ∅)).

Lemma lookup_sentiment : bundle !! "sentiment" = Some a.
Proof.
  unfold bundle. rewrite !lookup_insert_ne by done. apply lookup_insert_eq.
Qed.

Lemma lookup_summary : bundle !! "summary" = Some b.
Proof.
  unfold bundle. rewrite lookup_insert_ne by done. apply lookup_insert_eq.
Qed.

Lemma lookup_entities : bundle !! "entities" = Some c.
Proof. unfold bundle. apply lookup_insert_eq. Qed.

Lemma dom_bundle :
  dom bundle = ({[ "sentiment"; "summary"; "entities" ]} : gset string).
Proof. unfold bundle. rewrite !dom_insert_L, dom_empty_L. set_solver. Qed.

End Lookups.

(** ** The thresholds *)



Example label_positive : sentiment_label 0.6%float = "Positive".
Proof. reflexivity. Qed.

Example label_at_threshold : sentiment_label 0.1%float = "Neutral".
Proof. reflexivity. Qed.

Example label_negative : sentiment_label (-0.25)%float = "Negative".
Proof. reflexivity. Qed.

Example label_nan : sentiment_label nan = "Neutral".
Proof. reflexivity. Qed.



(** ** The two entity loops *)

(** The first loop keeps, in order, the spans with a kept label. *)
Lemma collect_entities_filter (ents : list Span) :
  collect_entities ents = filter kept (pair_of <$> ents).
Proof.
  unfold collect_entities.
  enough (H : ∀ acc,
             foldl (λ entities ent,
                      if bool_decide (label_ ent ∈ kept_labels)
                      then entities ++ [(ent_text ent, label_ ent)]
                      else entities) acc ents
             = acc ++ filter kept (pair_of <$> ents))
    by apply (H []).
  induction ents as [|ent ents IH]; intros acc; simpl.
  - by rewrite app_nil_r.
  - rewrite IH, filter_cons. unfold kept at 2, pair_of at 2. simpl.
    case_bool_decide; case_decide; try done. by rewrite <- app_assoc.
Qed.

Lemma first_before_app {A} (x y : A) (l l' : list A) :
  first_before x y l → first_before x y (l ++ l').
Proof.
  intros (Hne & l1 & l2 & -> & Hx & Hy). split; [done|].
  exists l1, (l2 ++ l'). by rewrite <- app_assoc.
Qed.

Lemma dedup_inv_step done st entity :
  dedup_inv done st → dedup_inv (done ++ [entity]) (dedup_step st entity).
Proof.
  destruct st as [seen unique]. intros [Hseen Hnodup Helems Horder].
  simpl in *. unfold dedup_step. case_bool_decide as Hin.
  - split; simpl; [done|done| |].
    + intros x. rewrite Helems. set_solver.
    + intros i j x y Hi Hj Hij. apply first_before_app. eauto.
  - assert (Hnew : entity ∉ unique) by (by rewrite <- Hseen).
    split; simpl.
    + intros x. rewrite elem_of_union, elem_of_app, Hseen. set_solver.
    + apply NoDup_app. split; [done|]. split; [|apply NoDup_singleton].
      intros x Hx. set_solver.
    + intros x. by rewrite !elem_of_app, Helems.
    + intros i j x y Hi Hj Hij.
      destruct (decide (j < length unique)) as [Hlt|Hge].
      * rewrite lookup_app_l in Hi by lia. rewrite lookup_app_l in Hj by lia.
        apply first_before_app. eauto.
      * rewrite lookup_app_l in Hi.
        2:{ apply lookup_lt_Some in Hj. rewrite length_app in Hj.
            simpl in Hj. lia. }
        rewrite lookup_app_r in Hj by lia.
        apply list_lookup_singleton_Some in Hj as [_ <-].
        assert (Hx : x ∈ unique) by (by eapply list_elem_of_lookup_2).
        assert (x ≠ entity) by (by intros ->).
        apply Helems in Hx.
        apply list_elem_of_split_l in Hx as (l1 & l2 & -> & Hl1).
        split; [done|]. exists l1, (l2 ++ [entity]).
        rewrite <- app_assoc. simpl. split; [done|]. split; [done|].
        intros Hy. apply Hnew, Helems. set_solver.
Qed.

Lemma dedup_inv_foldl rest done st :
  dedup_inv done st → dedup_inv (done ++ rest) (foldl dedup_step st rest).
Proof.
  revert done st. induction rest as [|entity rest IH]; intros done st Hinv;
    simpl.
  - by rewrite app_nil_r.
  - replace (done ++ entity :: rest) with ((done ++ [entity]) ++ rest)
      by (by rewrite <- app_assoc).
    apply IH, dedup_inv_step, Hinv.
Qed.

Lemma remove_duplicates_inv (entities : list (string * string)) :
  dedup_inv entities (foldl dedup_step (∅, []) entities).
Proof.
  apply (dedup_inv_foldl entities [] (∅, [])).
  split; simpl; [set_solver|apply NoDup_nil_2|set_solver|].
  intros i j x y Hi. by rewrite lookup_nil in Hi.
Qed.

(** First occurrences keep their order when the elements that fail a test
    are put back. *)
Lemma first_before_filter {A} (P : A → Prop) `{!∀ x, Decision (P x)}
    (x y : A) (l : list A) :
  P x → P y → first_before x y (filter P l) → first_before x y l.
Proof.
  intros HPx HPy (Hne & l1 & l2 & Hl & Hx & Hy). split; [done|].
  revert l1 Hl Hx Hy. induction l as [|a l IH]; intros l1 Hl Hx Hy.
  - by destruct l1.
  - rewrite filter_cons in Hl. destruct (decide (P a)) as [HPa|HPa].
    + destruct l1 as [|b l1]; simpl in Hl; injection Hl as -> Hl.
      * by exists [], l.
      * apply not_elem_of_cons in Hx as [? Hx].
        apply not_elem_of_cons in Hy as [? Hy].
        destruct (IH l1 Hl Hx Hy) as (m1 & m2 & -> & ? & ?).
        exists (b :: m1), m2. set_solver.
    + destruct (IH l1 Hl Hx Hy) as (m1 & m2 & -> & ? & ?).
      exists (a :: m1), m2.
      assert (x ≠ a) by (by intros ->). assert (y ≠ a) by (by intros ->).
      set_solver.
Qed.

(** What the two loops compute together, in terms of the tagger output. *)
Lemma unique_entities_spec (ents : list Span) :
  let tagged := pair_of <$> ents in
  let unique_entities := remove_duplicates (collect_entities ents) in
  NoDup unique_entities
  ∧ (∀ x, x ∈ unique_entities ↔ x ∈ tagged ∧ kept x)
  ∧ (∀ i j x y,
       unique_entities !! i = Some x → unique_entities !! j = Some y →
       i < j → first_before x y tagged).
Proof.
  intros tagged unique_entities. subst unique_entities.
  unfold remove_duplicates. rewrite collect_entities_filter.
  destruct (remove_duplicates_inv (filter kept tagged))
    as [_ Hnodup Helems Horder]. fold tagged.
  assert (Hin : ∀ x, x ∈ (foldl dedup_step (∅, []) (filter kept tagged)).2
                     ↔ x ∈ tagged ∧ kept x).
  { intros x. rewrite Helems, list_elem_of_filter. tauto. }
  split; [done|]. split; [done|].
  intros i j x y Hi Hj Hij.
  apply (first_before_filter kept).
  - by eapply Hin, list_elem_of_lookup_2.
  - by eapply Hin, list_elem_of_lookup_2.
  - eauto.
Qed.

Example unique_entities_of_scenario :
  remove_duplicates (collect_entities Scenario.tagged)
  = [("Paris", "GPE"); ("John Smith", "PERSON"); ("Paris", "PERSON")].
Proof. vm_compute. reflexivity. Qed.

(** C3.  For a non-empty transcript the entities entry of the bundle is a
    list of (text, category) pairs whose categories are all among PERSON,
    ORG, GPE and PRODUCT and in which no pair occurs twice.  It is empty
    when no tagger is loaded.  When the tagger answers, the list holds
    exactly the kept pairs of its output, each at the place of its first
    occurrence: a pair listed before another one first occurs before it in
    the tagger's output. *)
Theorem entities_kept_unique_in_first_seen_order
    (E : env) (t : string) (w : world) :
  t ≠ EmptyString →
  analyses_raise_only_Exception E t = true →
  ∃ insights w' unique_entities,
    get_insights E (Some t) w = (Ok insights, w')
    ∧ insights !! "entities" = Some (VList unique_entities)
    ∧ (∀ x, x ∈ unique_entities → x.2 ∈ kept_labels)
    ∧ NoDup unique_entities
    ∧ (nlp E = None → unique_entities = [])
    ∧ (∀ tagger ents,
         nlp E = Some tagger → tagger t = Ok ents →
         (∀ x, x ∈ unique_entities ↔ x ∈ pair_of <$> ents ∧ x.2 ∈ kept_labels)
         ∧ (∀ i j x y,
              unique_entities !! i = Some x → unique_entities !! j = Some y →
              i < j → first_before x y (pair_of <$> ents))).
Proof.
  intros Ht Hexc.
  assert (Hfield : ∃ us, entities_field E t = VList us
            ∧ (∀ x, x ∈ us → x.2 ∈ kept_labels) ∧ NoDup us
            ∧ (nlp E = None → us = [])
            ∧ (∀ tagger ents, nlp E = Some tagger → tagger t = Ok ents →
                 us = remove_duplicates (collect_entities ents))).
  { unfold entities_field, nlp_answer.
    destruct (nlp E) as [tagger|]; [destruct (tagger t) as [ents|e] eqn:Hans|].
    - exists (remove_duplicates (collect_entities ents)).
      destruct (unique_entities_spec ents) as (Hnodup & Hin & _).
      split; [done|]. split; [by intros x [_ ?]%Hin|]. split; [done|].
      split; [done|]. intros tagger' ents' [= <-]. by rewrite Hans; intros [= <-].
    - exists []. split; [done|]. split; [by intros x ?%elem_of_nil|].
      split; [apply NoDup_nil_2|]. split; [done|].
      intros tagger' ents' [= <-]. by rewrite Hans.
    - exists []. split; [done|]. split; [by intros x ?%elem_of_nil|].
      split; [apply NoDup_nil_2|]. by split. }
  destruct Hfield as (us & Hus & Hkept & Hnodup & Hnone & Htagged).
  eexists _, _, us. split; [by apply get_insights_run|].
  split; [by rewrite lookup_entities, Hus|].
  split; [done|]. split; [done|]. split; [done|].
  intros tagger ents Hnlp Hans. rewrite (Htagged tagger ents Hnlp Hans).
  destruct (unique_entities_spec ents) as (_ & Hin & Horder). by split.
Qed.

Lemma entities_kept_unique_in_first_seen_order_witness :
  ∃ insights w' unique_entities,
    get_insights Scenario.all_fine (Some "Paris with John Smith") Scenario.fresh
    = (Ok insights, w')
    ∧ insights !! "entities" = Some (VList unique_entities)
    ∧ (∀ x, x ∈ unique_entities → x.2 ∈ kept_labels)
    ∧ NoDup unique_entities
    ∧ (nlp Scenario.all_fine = None → unique_entities = [])
    ∧ (∀ tagger ents,
         nlp Scenario.all_fine = Some tagger →
         tagger "Paris with John Smith" = Ok ents →
         (∀ x, x ∈ unique_entities ↔ x ∈ pair_of <$> ents ∧ x.2 ∈ kept_labels)
         ∧ (∀ i j x y,
              unique_entities !! i = Some x → unique_entities !! j = Some y →
              i < j → first_before x y (pair_of <$> ents))).
Proof.
  apply (entities_kept_unique_in_first_seen_order Scenario.all_fine
           "Paris with John Smith" Scenario.fresh); [discriminate|reflexivity].
Defined.

(** ** The empty transcript *)

(** C4, as worded, fails: for the empty transcript the dictionary returned
    is [{}], which has no entities entry, hence no empty entity list. *)
Lemma empty_transcript_has_no_entity_list :
  ¬ ∃ insights w',
      get_insights Scenario.all_fine (Some EmptyString) Scenario.fresh
      = (Ok insights, w')
      ∧ has_no_sentiment insights
      ∧ has_no_summary insights
      ∧ has_empty_entity_list insights.
Proof.
  intros (insights & w' & Hrun & _ & _ & Hentities).
  injection Hrun as <- _. unfold has_empty_entity_list in Hentities.
  by rewrite lookup_empty in Hentities.
Qed.

(** C4, amended.  For an empty or absent transcript [get_insights] returns
    at once, with no collaborator called and the world unchanged, and the
    bundle is the empty dictionary: it has no sentiment, no summary and no
    entities entry, so that a caller reading the entities with an empty
    list as default, as the main program does, sees an empty list. *)
Theorem empty_transcript_gives_empty_bundle
    (E : env) (full_transcript : option string) (w : world) :
  is_empty_transcript full_transcript →
  ∃ insights,
    get_insights E full_transcript w = (Ok insights, w)
    ∧ insights = ∅
    ∧ insights !! "sentiment" = None
    ∧ insights !! "summary" = None
    ∧ insights !! "entities" = None
    ∧ dict_get insights "entities" (VList []) = VList [].
Proof.
  intros [->| ->]; exists ∅; by repeat split.
Qed.

Lemma empty_transcript_gives_empty_bundle_witness :
  is_empty_transcript (Some EmptyString)
  ∧ ∃ insights,
      get_insights Scenario.all_fine (Some EmptyString) Scenario.fresh
      = (Ok insights, Scenario.fresh)
      ∧ insights = ∅
      ∧ insights !! "sentiment" = None
      ∧ insights !! "summary" = None
      ∧ insights !! "entities" = None
      ∧ dict_get insights "entities" (VList []) = VList [].
Proof.
  split; [right; reflexivity|].
  apply (empty_transcript_gives_empty_bundle Scenario.all_fine
           (Some EmptyString) Scenario.fresh).
  right; reflexivity.
Defined.

(** ** Independent, fail-soft analyses *)

(** C5.  For a non-empty transcript no exception of an analysis leaves
    [get_insights].  Every analysis whose model is loaded is called,
    whichever of them fail, and each entry of the bundle is decided by the
    answer of its own collaborator alone: a failure gives [None] for the
    sentiment, [None] for the summary, the empty list for the entities, and
    two runs that differ in the answer of one collaborator agree on the two
    other entries. *)
Theorem analyses_fail_soft_and_independently
    (E : env) (t : string) (w : world) :
  t ≠ EmptyString →
  analyses_raise_only_Exception E t = true →
  ∃ insights,
    get_insights E (Some t) w
    = (Ok insights, World (files w) (log w ++ analyses_log E t))
    ∧ insights !! "sentiment" = Some (sentiment_field E t)
    ∧ insights !! "summary" = Some (summary_field E t)
    ∧ insights !! "entities" = Some (entities_field E t)
    ∧ (∀ e, polarity_of E t = Raise e → insights !! "sentiment" = Some VNone)
    ∧ (∀ e, summarizer_answer E t = Some (Raise e) →
            insights !! "summary" = Some VNone)
    ∧ (∀ e, nlp_answer E t = Some (Raise e) →
            insights !! "entities" = Some (VList []))
    ∧ (∀ E' insights' w',
         analyses_raise_only_Exception E' t = true →
         get_insights E' (Some t) w = (Ok insights', w') →
         (polarity_of E' t = polarity_of E t →
          insights' !! "sentiment" = insights !! "sentiment")
         ∧ (summarizer_answer E' t = summarizer_answer E t →
            insights' !! "summary" = insights !! "summary")
         ∧ (nlp_answer E' t = nlp_answer E t →
            insights' !! "entities" = insights !! "entities")).
Proof.
  intros Ht Hexc. eexists. split; [by apply get_insights_run|].
  rewrite lookup_sentiment, lookup_summary, lookup_entities.
  do 3 (split; [done|]). split; [|split; [|split]].
  - intros e He. unfold sentiment_field. by rewrite He.
  - intros e He. unfold summary_field. by rewrite He.
  - intros e He. unfold entities_field. by rewrite He.
  - intros E' insights' w' Hexc' Hrun'.
    rewrite (get_insights_run E' t w Ht Hexc') in Hrun'.
    injection Hrun' as <- _.
    rewrite lookup_sentiment, lookup_summary, lookup_entities.
    unfold sentiment_field, summary_field, entities_field.
    by repeat split; intros ->.
Qed.

Lemma analyses_fail_soft_and_independently_witness :
  polarity_of Scenario.two_failures "terrible" = Raise (Exn RuntimeError "missing corpus")
  ∧ ∃ insights,
      get_insights Scenario.two_failures (Some "terrible") Scenario.fresh
      = (Ok insights,
         World ∅ [EvTextBlob "terrible";
                  EvSummarizer "terrible" 150 30 false;
                  EvNlp "terrible"])
      ∧ insights !! "sentiment" = Some VNone
      ∧ insights !! "summary" = Some VNone
      ∧ insights !! "entities"
        = Some (VList [("Paris", "GPE"); ("John Smith", "PERSON");
                       ("Paris", "PERSON")]).
Proof.
  split; [reflexivity|].
  destruct (analyses_fail_soft_and_independently Scenario.two_failures
              "terrible" Scenario.fresh)
    as (insights & Hrun & Hsent & Hsum & Hent & _); [discriminate|reflexivity|].
  exists insights. split; [exact Hrun|]. split; [exact Hsent|].
  split; [exact Hsum|]. rewrite Hent. vm_compute. reflexivity.
Defined.

(** ** The shape of the bundle *)

(** C10.  For a non-empty transcript the bundle has exactly the keys
    sentiment, summary and entities, whichever models are loaded and
    whichever analyses fail: the sentiment is [None] or a mapping with a
    label and a score, the summary is [None] or a text, and the entities
    are a list. *)
Theorem bundle_has_its_three_keys (E : env) (t : string) (w : world) :
  t ≠ EmptyString →
  analyses_raise_only_Exception E t = true →
  ∃ insights w',
    get_insights E (Some t) w = (Ok insights, w')
    ∧ dom insights = ({[ "sentiment"; "summary"; "entities" ]} : gset string)
    ∧ (insights !! "sentiment" = Some VNone
       ∨ ∃ label score,
           insights !! "sentiment"
           = Some (VDict {[ "label" := VStr label; "score" := VFloat score ]}))
    ∧ (insights !! "summary" = Some VNone
       ∨ ∃ summary_text, insights !! "summary" = Some (VStr summary_text))
    ∧ ∃ entities, insights !! "entities" = Some (VList entities).
Proof.
  intros Ht Hexc. eexists _, _. split; [by apply get_insights_run|].
  rewrite dom_bundle, lookup_sentiment, lookup_summary, lookup_entities.
  split; [done|]. split; [|split].
  - unfold sentiment_field, sentiment_of.
    destruct (polarity_of E t); [right; by eexists _, _|by left].
  - unfold summary_field.
    destruct (summarizer_answer E t) as [[[|first rest]|]|]; try by left.
    destruct (first !! "summary_text"); [right; by eexists|by left].
  - unfold entities_field.
    destruct (nlp_answer E t) as [[ents|]|]; by eexists.
Qed.

Lemma bundle_has_its_three_keys_witness :
  ∃ insights w',
    get_insights Scenario.two_failures (Some "terrible") Scenario.fresh
    = (Ok insights, w')
    ∧ dom insights = ({[ "sentiment"; "summary"; "entities" ]} : gset string)
    ∧ (insights !! "sentiment" = Some VNone
       ∨ ∃ label score,
           insights !! "sentiment"
           = Some (VDict {[ "label" := VStr label; "score" := VFloat score ]}))
    ∧ (insights !! "summary" = Some VNone
       ∨ ∃ summary_text, insights !! "summary" = Some (VStr summary_text))
    ∧ ∃ entities, insights !! "entities" = Some (VList entities).
Proof.
  apply (bundle_has_its_three_keys Scenario.two_failures "terrible"
           Scenario.fresh); [discriminate|reflexivity].
Defined.

End InsightFacts.

(* ===================================================================== *)
(** * fetch_paper_metadata *)
(* ===================================================================== *)

Module FetchFacts.

Ltac run_monad :=
  unfold mbind, M_bind, mret, M_ret, lift, call, try_except in *; simpl in *.

Example endpoints_of_prefixed_id :
  endpoints "arXiv:2301.00001"
  = [ "https://huggingface.co/api/papers/2301.00001";
      "https://huggingface.co/api/papers/arxiv:2301.00001";
      "https://huggingface.co/api/papers/arXiv:2301.00001" ].
Proof. reflexivity. Qed.

(** One turn of the loop, by the answer of the session. *)
Lemma try_endpoint_request_error self endpoint e w :
  session_get self endpoint 10 = Raise e →
  is_RequestException e = true →
  try_endpoint self endpoint w = (Ok Continue, record (EvGet endpoint 10) w).
Proof. intros Hget He. unfold try_endpoint. run_monad. by rewrite Hget, He. Qed.

Lemma try_endpoint_other_status self endpoint response w :
  session_get self endpoint 10 = Ok response →
  (status_code response =? 200)%Z = false →
  try_endpoint self endpoint w = (Ok Continue, record (EvGet endpoint 10) w).
Proof.
  intros Hget Hcode. unfold try_endpoint. run_monad. rewrite Hget, Hcode.
  by destruct (status_code response =? 404)%Z.
Qed.

Lemma try_endpoint_found self endpoint response body w :
  session_get self endpoint 10 = Ok response →
  (status_code response =? 200)%Z = true →
  json_body response = Ok body →
  try_endpoint self endpoint w
  = (Ok (Return (Some body)), record (EvGet endpoint 10) w).
Proof.
  intros Hget Hcode Hbody. unfold try_endpoint. run_monad.
  by rewrite Hget, Hcode, Hbody.
Qed.

Lemma try_endpoint_logs_one_query self endpoint w :
  (try_endpoint self endpoint w).2 = record (EvGet endpoint 10) w.
Proof.
  unfold try_endpoint. run_monad.
  destruct (session_get self endpoint 10) as [response|e]; simpl.
  - destruct (status_code response =? 200)%Z; simpl.
    + destruct (json_body response) as [body|e]; simpl; [done|].
      by destruct (is_RequestException e).
    + by destruct (status_code response =? 404)%Z.
  - by destruct (is_RequestException e).
Qed.

(** The loop over any list of endpoints: what is queried, what is returned
    at the first endpoint that answers 200 with a body that decodes, and
    what is returned when none answers 200. *)
Lemma try_endpoints_spec (self : Session) (eps : list string) (w : world) :
  fails_with_RequestException self eps = true →
  ∃ r n,
    try_endpoints self eps w
    = (r, World (files w) (log w ++ queries (take n eps)))
    ∧ (∀ i endpoint response body,
         eps !! i = Some endpoint →
         (∀ j earlier, j < i → eps !! j = Some earlier →
                       responds_200 self earlier = false) →
         session_get self endpoint 10 = Ok response →
         status_code response = 200%Z →
         json_body response = Ok body →
         r = Ok (Some body) ∧ n = S i)
    ∧ ((∀ endpoint, endpoint ∈ eps → responds_200 self endpoint = false) →
       r = Ok None ∧ n = length eps).
Proof.
  revert w. induction eps as [|ep eps IH]; intros w Herr.
  { exists (Ok None), 0. simpl. rewrite app_nil_r. destruct w.
    split; [done|]. split; [|done]. intros i ? ? ? Hi. by rewrite lookup_nil in Hi. }
  simpl in Herr. apply andb_prop in Herr as [Hep Herr].
  (* the turn for [ep] goes on to the next endpoint *)
  assert (Hgo : try_endpoint self ep w = (Ok Continue, record (EvGet ep 10) w) →
                (∀ response body, session_get self ep 10 = Ok response →
                   status_code response = 200%Z → json_body response = Ok body →
                   False) →
                ∃ r n,
                  try_endpoints self (ep :: eps) w
                  = (r, World (files w) (log w ++ queries (take n (ep :: eps))))
                  ∧ (∀ i endpoint response body,
                       (ep :: eps) !! i = Some endpoint →
                       (∀ j earlier, j < i → (ep :: eps) !! j = Some earlier →
                                     responds_200 self earlier = false) →
                       session_get self endpoint 10 = Ok response →
                       status_code response = 200%Z →
                       json_body response = Ok body →
                       r = Ok (Some body) ∧ n = S i)
                  ∧ ((∀ endpoint, endpoint ∈ ep :: eps →
                                  responds_200 self endpoint = false) →
                     r = Ok None ∧ n = length (ep :: eps))).
  { intros Hturn Hnot.
    destruct (IH (record (EvGet ep 10) w) Herr) as (r & n & Hrun & Hfirst & Hnone).
    exists r, (S n). split; [|split].
    - simpl. unfold mbind, M_bind. rewrite Hturn, Hrun. simpl.
      by rewrite <- app_assoc.
    - intros [|i] endpoint response body Hi Hearlier Hget Hcode Hbody.
      + injection Hi as <-. by destruct (Hnot response body).
      + destruct (Hfirst i endpoint response body Hi) as [-> ->]; try done.
        intros j earlier Hj Hlook. apply (Hearlier (S j)); [lia|done].
    - intros Hno. destruct Hnone as [-> ->]; [|done].
      intros endpoint Hin. apply Hno. by right. }
  destruct (session_get self ep 10) as [response|e] eqn:Hget.
  - destruct (status_code response =? 200)%Z eqn:Hcode.
    + (* the endpoint answers 200 *)
      assert (Hyes : responds_200 self ep = true)
        by (unfold responds_200; by rewrite Hget).
      destruct (json_body response) as [body|e] eqn:Hbody.
      * exists (Ok (Some body)), 1. split; [|split].
        -- simpl. unfold mbind, M_bind.
           by rewrite (try_endpoint_found self ep response body w).
        -- intros [|i] endpoint response' body' Hi Hearlier Hget' Hcode' Hbody'.
           ++ injection Hi as <-. rewrite Hget in Hget'.
              injection Hget' as <-. rewrite Hbody in Hbody'.
              by injection Hbody' as <-.
           ++ specialize (Hearlier 0 ep ltac:(lia) eq_refl). congruence.
        -- intros Hno. specialize (Hno ep ltac:(by left)). congruence.
      * (* the body does not decode: outside both statements *)
        pose proof (try_endpoint_logs_one_query self ep w) as Hlog.
        destruct (try_endpoint self ep w) as [[[result|]|e'] w1] eqn:Hturn;
          simpl in Hlog; subst w1.
        -- exists (Ok result), 1. split; [|split].
           ++ simpl. unfold mbind, M_bind. by rewrite Hturn.
           ++ intros [|i] endpoint response' body' Hi Hearlier Hget' Hcode' Hbody'.
              ** injection Hi as <-. congruence.
              ** specialize (Hearlier 0 ep ltac:(lia) eq_refl). congruence.
           ++ intros Hno. specialize (Hno ep ltac:(by left)). congruence.
        -- apply Hgo; [done|]. intros response' body' [= <-]. congruence.
        -- exists (Raise e'), 1. split; [|split].
           ++ simpl. unfold mbind, M_bind. by rewrite Hturn.
           ++ intros [|i] endpoint response' body' Hi Hearlier Hget' Hcode' Hbody'.
              ** injection Hi as <-. congruence.
              ** specialize (Hearlier 0 ep ltac:(lia) eq_refl). congruence.
           ++ intros Hno. specialize (Hno ep ltac:(by left)). congruence.
    + apply Hgo; [by eapply try_endpoint_other_status|].
      intros response' body' [= <-] Hcode'. rewrite Hcode' in Hcode. done.
  - apply Hgo; [by apply (try_endpoint_request_error self ep e w)|done].
Qed.

(** C9.  [fetch_paper_metadata] queries the candidate endpoints in order,
    each with the timeout 10, and stops at some point of the list.  An
    endpoint that does not answer 200, be it a 404, another status or a
    request error, is passed over: the result is the decoded body of the
    first endpoint that answers 200, whatever the earlier ones answered
    short of 200, and it is [None], not an exception, with every endpoint
    queried, when no endpoint answers 200. *)
Theorem fetch_paper_metadata_first_200_or_None
    (self : Session) (arxiv_id : string) (w : world) :
  fails_with_RequestException self (endpoints arxiv_id) = true →
  ∃ r n,
    fetch_paper_metadata self arxiv_id w
    = (r, World (files w) (log w ++ queries (take n (endpoints arxiv_id))))
    ∧ (∀ i endpoint response body,
         endpoints arxiv_id !! i = Some endpoint →
         (∀ j earlier, j < i → endpoints arxiv_id !! j = Some earlier →
                       responds_200 self earlier = false) →
         session_get self endpoint 10 = Ok response →
         status_code response = 200%Z →
         json_body response = Ok body →
         r = Ok (Some body) ∧ n = S i)
    ∧ ((∀ endpoint, endpoint ∈ endpoints arxiv_id →
                    responds_200 self endpoint = false) →
       r = Ok None ∧ n = length (endpoints arxiv_id)).
Proof.
  intros Herr. unfold fetch_paper_metadata. by apply try_endpoints_spec.
Qed.

Lemma fetch_paper_metadata_first_200_or_None_witness :
  fails_with_RequestException Scenario.hub (endpoints "2301.00001") = true
  ∧ session_get Scenario.hub "https://huggingface.co/api/papers/2301.00001" 10
    = Ok (MkResponse 404 (Raise (Exn RequestException "not json")))
  ∧ fetch_paper_metadata Scenario.hub "2301.00001" Scenario.fresh
    = (Ok (Some Scenario.paper),
       World ∅ [ EvGet "https://huggingface.co/api/papers/2301.00001" 10;
                 EvGet "https://huggingface.co/api/papers/arxiv:2301.00001" 10 ]).
Proof.
  split; [reflexivity|]. split; [reflexivity|].
  destruct (fetch_paper_metadata_first_200_or_None Scenario.hub "2301.00001"
              Scenario.fresh eq_refl) as (r & n & Hrun & Hfirst & _).
  destruct (Hfirst 1 "https://huggingface.co/api/papers/arxiv:2301.00001"
              (MkResponse 200 (Ok Scenario.paper)) Scenario.paper)
    as [-> ->]; [reflexivity| |reflexivity|reflexivity|reflexivity|exact Hrun].
  intros [|j] earlier Hj Hlook; [|lia]. injection Hlook as <-. reflexivity.
Defined.

End FetchFacts.

(* ===================================================================== *)
(** * get_transcript, whatever the collaborators do *)
(* ===================================================================== *)

Module ResolverFacts.

Import PyFacts MainProgram.

(** Follow every path of a run: split on each answer a collaborator can
    give, innermost test first, keeping the equations. *)
Ltac split_on_answers :=
  repeat
    (simpl;
     match goal with
     | |- context [match ?x with _ => _ end] =>
         lazymatch x with
         | context [match _ with _ => _ end] => fail
         | _ => destruct x eqn:?
         end
     | |- context [if ?x then _ else _] =>
         lazymatch x with
         | context [if _ then _ else _] => fail
         | context [match _ with _ => _ end] => fail
         | _ => destruct x eqn:?
         end
     end);
  simpl.

Ltac unfold_get_transcript :=
  unfold get_transcript;
  unfold mbind, M_bind, mret, M_ret, lift, call, try_except, anything;
  unfold stream_download, os_remove, os_path_exists, getitem, record.



(** Each method is tried at most once, captions first: a run makes exactly
    one caption request, as its first call, and at most one download and
    one transcription. *)
Theorem one_attempt_per_method (E : env) (video_url : string) (w : world) :
  ∃ video_id rest,
    video_id_of video_url = Ok video_id
    ∧ log (get_transcript E video_url w).2
      = log w ++ EvFetch video_id languages :: rest
    ∧ count is_fetch rest = 0
    ∧ count is_download rest ≤ 1
    ∧ count is_transcribe rest ≤ 1.
Proof.
  destruct (TranscriptFacts.video_id_of_defined video_url) as [video_id Hv].
  exists video_id. unfold_get_transcript. rewrite Hv.
  split_on_answers; rewrite <- ?app_assoc; simpl;
    (eexists; split; [done|]; split; [reflexivity|]);
    vm_compute; repeat split; lia.
Qed.

(** The same, in the form the loop of the main program uses. *)
Lemma get_transcript_fetches_once (E : env) (video_url : string) (w : world) :
  ∃ rest,
    log (get_transcript E video_url w).2 = log w ++ fetch_of video_url :: rest
    ∧ filter (λ ev, is_fetch ev = true) rest = [].
Proof.
  destruct (TranscriptFacts.video_id_of_defined video_url) as [video_id Hv].
  unfold fetch_of. unfold_get_transcript. rewrite Hv.
  split_on_answers; rewrite <- ?app_assoc; simpl;
    (eexists; split; [reflexivity|]); vm_compute; reflexivity.
Qed.

(** The only file a run can add or remove is the temporary audio file. *)
Theorem only_temp_audio_is_touched (E : env) (video_url : string) (w : world) :
  files (get_transcript E video_url w).2 ∖ {[ temp_audio ]}
  = files w ∖ {[ temp_audio ]}.
Proof.
  destruct (TranscriptFacts.video_id_of_defined video_url) as [video_id Hv].
  unfold_get_transcript. rewrite Hv.
  split_on_answers; set_solver.
Qed.

(** The clean-up is not a [finally]: when the download has succeeded and
    the transcription raises something outside [Exception] (an interrupt),
    the exception leaves [get_transcript] with no removal attempted, and
    the temporary audio file stays behind. *)
Theorem interrupt_leaves_temp_audio
    (E : env) (video_url video_id : string) (w : world) (e e' : exn)
    (model : string → outcome (gmap string string))
    (yt : YouTubeObject) (stream : Stream) :
  video_id_of video_url = Ok video_id →
  fetch E video_id languages = Raise e →
  is_Exception e = true →
  whisper_model E = Some model →
  YouTube E video_url = Ok yt →
  get_audio_only yt = Ok (Some stream) →
  download stream temp_audio = Downloaded →
  model temp_audio = Raise e' →
  is_Exception e' = false →
  ∃ w',
    get_transcript E video_url w = (Raise e', w')
    ∧ temp_audio ∈ files w'
    ∧ log w' = log w ++ [ EvFetch video_id languages; EvYouTube video_url;
                          EvGetAudioOnly; EvDownload temp_audio;
                          EvTranscribe temp_audio ].
Proof.
  intros Hv Hf He Hm Hy Hs Hd Ht He'.
  unfold_get_transcript. rewrite Hv, Hf, He, Hm, Hy. simpl.
  rewrite Hs. simpl. rewrite Hd. simpl. rewrite Ht. simpl. rewrite He'.
  eexists. split; [reflexivity|]. simpl. split; [set_solver|].
  by rewrite <- !app_assoc.
Qed.

Lemma interrupt_leaves_temp_audio_witness :
  ∃ w',
    get_transcript Demo.interrupted Scenario.video_url Scenario.fresh
    = (Raise (Exn KeyboardInterrupt "interrupted"), w')
    ∧ temp_audio ∈ files w'
    ∧ log w' = log Scenario.fresh
               ++ [ EvFetch "dQw4w9WgXcQ" languages;
                    EvYouTube Scenario.video_url;
                    EvGetAudioOnly; EvDownload temp_audio;
                    EvTranscribe temp_audio ].
Proof.
  apply (interrupt_leaves_temp_audio Demo.interrupted Scenario.video_url
           "dQw4w9WgXcQ" Scenario.fresh Scenario.no_captions
           (Exn KeyboardInterrupt "interrupted")
           (λ _, Raise (Exn KeyboardInterrupt "interrupted"))
           (MkYouTube (Ok (Some (MkStream (λ _, Downloaded)))))
           (MkStream (λ _, Downloaded)));
    reflexivity.
Defined.


(** Use the equations gathered along a path. *)
Ltac use_answers :=
  repeat match goal with
         | H : ?x = _ |- context [?x] => rewrite H
         end.

(** A transcript that is returned has a source: it is the joined caption
    text, or, after the caption request has failed with a model loaded, the
    text of the transcription.  [get_transcript] never returns a text of
    its own. *)
Theorem transcript_comes_from_captions_or_whisper
    (E : env) (video_url video_id : string) (w w' : world) (t : string) :
  video_id_of video_url = Ok video_id →
  get_transcript E video_url w = (Ok (Some t), w') →
  (∃ segments,
     fetch E video_id languages = Ok segments
     ∧ t = join " " (text <$> segments))
  ∨ (∃ e model,
       fetch E video_id languages = Raise e
       ∧ whisper_model E = Some model
       ∧ fallback_result model (find_audio_stream E video_url) = Some t).
Proof.
  intros Hv. unfold_get_transcript. rewrite Hv.
  split_on_answers; intros [= <- <-];
    first
      [ left; eexists; split; [reflexivity|reflexivity]
      | right; eexists _, _; split; [reflexivity|]; split; [reflexivity|];
        unfold fallback_result, find_audio_stream; use_answers; simpl;
        use_answers; simpl; use_answers; done ].
Qed.

Lemma transcript_comes_from_captions_or_whisper_witness :
  (∃ segments,
     fetch Scenario.spoken "dQw4w9WgXcQ" languages = Ok segments
     ∧ "spoken words" = join " " (text <$> segments))
  ∨ (∃ e model,
       fetch Scenario.spoken "dQw4w9WgXcQ" languages = Raise e
       ∧ whisper_model Scenario.spoken = Some model
       ∧ fallback_result model
           (find_audio_stream Scenario.spoken Scenario.video_url)
         = Some "spoken words").
Proof.
  apply (transcript_comes_from_captions_or_whisper Scenario.spoken
           Scenario.video_url "dQw4w9WgXcQ" Scenario.fresh
           (World ∅ [ EvFetch "dQw4w9WgXcQ" languages;
                      EvYouTube Scenario.video_url; EvGetAudioOnly;
                      EvDownload temp_audio; EvTranscribe temp_audio;
                      EvRemove temp_audio ])
           "spoken words"); [reflexivity|].
  vm_compute. reflexivity.
Defined.

End ResolverFacts.

(* ===================================================================== *)
(** * get_insights, whatever the collaborators do *)
(* ===================================================================== *)

Module ExtractorFacts.

Import ResolverFacts MainProgram.

Ltac unfold_get_insights :=
  unfold get_insights;
  unfold mbind, M_bind, mret, M_ret, lift, call, try_except, record,
    index_first, getitem.

(** As [split_on_answers], without unfolding anything: the dictionary, the
    label and the score play no part in the control flow. *)
Ltac step_only := cbv beta iota zeta delta [fst snd files log].

Ltac split_on_analyses :=
  repeat
    (step_only;
     match goal with
     | |- context [match ?x with _ => _ end] =>
         lazymatch x with
         | context [match _ with _ => _ end] => fail
         | _ => destruct x eqn:?
         end
     | |- context [if ?x then _ else _] =>
         lazymatch x with
         | context [if _ then _ else _] => fail
         | context [match _ with _ => _ end] => fail
         | _ => destruct x eqn:?
         end
     end);
  step_only.

(** No [Exception] leaves [get_insights]. *)
Theorem get_insights_raises_no_Exception
    (E : env) (full_transcript : option string) (w w' : world) (e : exn) :
  get_insights E full_transcript w = (Raise e, w') →
  is_Exception e = false.
Proof.
  destruct full_transcript as [[|a t]|]; try done.
  unfold_get_insights. split_on_analyses; intros [= <- <-]; done.
Qed.

Lemma get_insights_raises_no_Exception_witness :
  get_insights Demo.interrupted_scorer (Some "give you up") Scenario.fresh
  = (Raise (Exn KeyboardInterrupt "interrupted"),
     World ∅ [EvTextBlob "give you up"])
  ∧ is_Exception (Exn KeyboardInterrupt "interrupted") = false.
Proof.
  assert (Hrun :
    get_insights Demo.interrupted_scorer (Some "give you up") Scenario.fresh
    = (Raise (Exn KeyboardInterrupt "interrupted"),
       World ∅ [EvTextBlob "give you up"]))
    by reflexivity.
  split; [exact Hrun|].
  exact (get_insights_raises_no_Exception _ _ _ _ _ Hrun).
Defined.

Lemma analyses_prefix
    (E : env) (full_transcript : option string) (w : world) :
  ∃ new,
    (get_insights E full_transcript w).2 = World (files w) (log w ++ new)
    ∧ new `prefix_of` analyses_log E (default EmptyString full_transcript).
Proof.
  destruct full_transcript as [[|a t]|];
    try (exists []; simpl; rewrite app_nil_r; destruct w; split;
         [done|apply prefix_nil]).
  unfold_get_insights. unfold analyses_log. simpl default.
  split_on_analyses; rewrite <- ?app_assoc;
    (eexists; split; [reflexivity|]); simpl app;
    repeat (apply prefix_cons); first [ apply prefix_nil | done ].
Qed.

(** [get_insights] touches no file, and the calls it makes are an initial
    part of: the scorer, then the summariser when it is loaded, then the
    tagger when it is loaded.  So each analysis runs at most once, in that
    order, and nothing else is called. *)
Theorem get_insights_calls_only_the_analyses
    (E : env) (full_transcript : option string) (w : world) :
  ∃ new,
    (get_insights E full_transcript w).2 = World (files w) (log w ++ new)
    ∧ new `prefix_of` analyses_log E (default EmptyString full_transcript).
Proof. apply analyses_prefix. Qed.

(** No analysis is a caption request. *)
Lemma analyses_make_no_fetch
    (E : env) (full_transcript : option string) (w : world) :
  ∃ new,
    (get_insights E full_transcript w).2 = World (files w) (log w ++ new)
    ∧ filter (λ ev, is_fetch ev = true) new = [].
Proof.
  destruct (analyses_prefix E full_transcript w) as (new & Hrun & [k Hk]).
  exists new. split; [done|].
  assert (Hall : filter (λ ev, is_fetch ev = true)
                   (analyses_log E (default EmptyString full_transcript)) = []).
  { unfold analyses_log. rewrite !filter_app.
    by destruct (summarizer E), (nlp E). }
  rewrite Hk, filter_app in Hall. by apply app_eq_nil in Hall as [? _].
Qed.

(** ** The input of the summariser *)

Lemma take_str_length (n : nat) (s : string) :
  String.length (take_str n s) = n `min` String.length s.
Proof.
  revert s. induction n as [|n IH]; intros [|a s]; simpl; try done.
  by rewrite IH.
Qed.

Lemma take_str_prefix (n : nat) (s : string) :
  ∃ rest, s = take_str n s +:+ rest.
Proof.
  revert s. induction n as [|n IH]; intros [|a s]; try by eexists.
  destruct (IH s) as [rest Hrest]. exists rest.
  change (String a s = String a (take_str n s +:+ rest)). by f_equal.
Qed.

Lemma take_str_all (n : nat) (s : string) :
  String.length s ≤ n → take_str n s = s.
Proof.
  revert s. induction n as [|n IH]; intros [|a s]; simpl; try done; [lia|].
  intros Hlen. rewrite IH; [done|lia].
Qed.

(** Every call of the summariser made by [get_insights] asks for at most
    150 and at least 30 tokens without sampling, on the first 1000
    characters of the transcript: the text passed is a prefix of the
    transcript, never longer than 1000 characters, and the whole transcript
    when that is no longer than 1000. *)
Theorem summarizer_reads_the_first_1000_characters
    (E : env) (t : string) (w : world) (new : list event)
    (snippet : string) (max_length min_length : Z) (do_sample : bool) :
  (get_insights E (Some t) w).2 = World (files w) (log w ++ new) →
  EvSummarizer snippet max_length min_length do_sample ∈ new →
  max_length = 150%Z ∧ min_length = 30%Z ∧ do_sample = false
  ∧ String.length snippet = 1000 `min` String.length t
  ∧ (∃ rest, t = snippet +:+ rest)
  ∧ (String.length t ≤ 1000 → snippet = t).
Proof.
  intros Hrun Hin.
  destruct (analyses_prefix E (Some t) w) as (new' & Hrun' & Hprefix).
  rewrite Hrun in Hrun'. injection Hrun' as Hnew%app_inv_head. subst new'.
  destruct Hprefix as [k Hk]. change (default EmptyString (Some t)) with t in Hk.
  assert (Hlog : EvSummarizer snippet max_length min_length do_sample
                 ∈ analyses_log E t) by (rewrite Hk; set_solver).
  unfold analyses_log in Hlog.
  apply elem_of_app in Hlog as [Hlog|Hlog]; [set_solver|].
  apply elem_of_app in Hlog as [Hlog|Hlog].
  - destruct (summarizer E); [|set_solver].
    apply list_elem_of_singleton in Hlog.
    assert (Hsnippet : snippet = take_str 1000 t) by congruence.
    assert (Hmax : max_length = 150%Z) by congruence.
    assert (Hmin : min_length = 30%Z) by congruence.
    assert (Hsample : do_sample = false) by congruence.
    clear Hlog Hin. subst snippet.
    split; [done|]. split; [done|]. split; [done|].
    split; [apply take_str_length|]. split; [apply take_str_prefix|].
    apply take_str_all.
  - destruct (nlp E); set_solver.
Qed.

Lemma summarizer_reads_the_first_1000_characters_witness :
  (get_insights Scenario.all_fine (Some "What an amazing trip")
     Scenario.fresh).2
  = World ∅ [ EvTextBlob "What an amazing trip";
              EvSummarizer "What an amazing trip" 150 30 false;
              EvNlp "What an amazing trip" ]
  ∧ String.length "What an amazing trip"
    = 1000 `min` String.length "What an amazing trip"
  ∧ (∃ rest, "What an amazing trip" = "What an amazing trip" +:+ rest).
Proof.
  assert (Hrun :
    (get_insights Scenario.all_fine (Some "What an amazing trip")
       Scenario.fresh).2
    = World ∅ [ EvTextBlob "What an amazing trip";
                EvSummarizer "What an amazing trip" 150 30 false;
                EvNlp "What an amazing trip" ])
    by (vm_compute; reflexivity).
  split; [exact Hrun|].
  destruct (summarizer_reads_the_first_1000_characters Scenario.all_fine
              "What an amazing trip" Scenario.fresh
              [ EvTextBlob "What an amazing trip";
                EvSummarizer "What an amazing trip" 150 30 false;
                EvNlp "What an amazing trip" ]
              "What an amazing trip" 150 30 false Hrun)
    as (_ & _ & _ & Hlength & Hprefix & _).
  - apply list_elem_of_further, list_elem_of_here.
  - split; [exact Hlength|exact Hprefix].
Defined.

(** ** The duplicate removal *)

Lemma dedup_foldl_fresh (l : list (string * string))
    (seen : gset (string * string)) (unique_entities : list (string * string)) :
  (∀ x, x ∈ seen ↔ x ∈ unique_entities) →
  NoDup l →
  (∀ x, x ∈ l → x ∉ unique_entities) →
  (foldl dedup_step (seen, unique_entities) l).2 = unique_entities ++ l.
Proof.
  revert seen unique_entities.
  induction l as [|entity l IH]; intros seen unique Hseen Hnodup Hfresh; simpl.
  - by rewrite app_nil_r.
  - apply NoDup_cons in Hnodup as [Hentity Hnodup].
    rewrite bool_decide_eq_false_2
      by (rewrite Hseen; apply Hfresh; by left).
    rewrite IH.
    + by rewrite <- app_assoc.
    + intros x. rewrite elem_of_union, elem_of_app, Hseen. set_solver.
    + done.
    + intros x Hx. rewrite elem_of_app, list_elem_of_singleton.
      intros [Hold| ->]; [|done]. eapply Hfresh; [by right|done].
Qed.

(** Removing duplicates changes nothing in a list without duplicates, so
    removing them twice is removing them once; and the result is never
    longer than the input. *)
Theorem remove_duplicates_idempotent (entities : list (string * string)) :
  (NoDup entities → remove_duplicates entities = entities)
  ∧ remove_duplicates (remove_duplicates entities)
    = remove_duplicates entities
  ∧ length (remove_duplicates entities) ≤ length entities.
Proof.
  assert (Hid : ∀ l : list (string * string),
             NoDup l → remove_duplicates l = l).
  { intros l Hl. unfold remove_duplicates.
    rewrite (dedup_foldl_fresh l ∅ []); [done|set_solver|done|].
    intros x _. apply not_elem_of_nil. }
  destruct (InsightFacts.remove_duplicates_inv entities)
    as [_ Hnodup Helems _].
  split; [apply Hid|]. split; [by apply Hid|].
  apply submseteq_length, NoDup_submseteq; [done|].
  intros x Hx. by apply Helems.
Qed.

End ExtractorFacts.

(* ===================================================================== *)
(** * get_channel_videos *)
(* ===================================================================== *)

Module ChannelFacts.

Import PyFacts MainProgram.

Ltac run_monad :=
  unfold mbind, M_bind, mret, M_ret, lift, call, try_except, anything in *;
  simpl in *.

(** The loop never raises and never touches the world: it appends, in
    order, the URL of every video whose identifier can be read. *)
Lemma for_videos_run (videos : list Video) (video_urls : list string)
    (w : world) :
  for_videos videos video_urls w
  = (Ok (video_urls ++ (watch_url <$> readable_ids videos)), w).
Proof.
  revert video_urls. induction videos as [|video videos IH];
    intros video_urls; simpl.
  - by rewrite app_nil_r.
  - unfold readable_ids. simpl. run_monad.
    destruct (video_id video) as [id|e]; simpl; rewrite IH; [|done].
    by rewrite <- app_assoc.
Qed.

Lemma readable_ids_length (videos : list Video) :
  length (readable_ids videos) ≤ length videos.
Proof.
  induction videos as [|video videos IH]; [done|].
  assert (Hcons : readable_ids (video :: videos)
                  = match video_id video with
                    | Ok id => id :: readable_ids videos
                    | Raise _ => readable_ids videos
                    end)
    by (unfold readable_ids; simpl; by destruct (video_id video)).
  rewrite Hcons. destruct (video_id video); simpl; lia.
Qed.

(** The three ways a call of [get_channel_videos] can go. *)
Lemma get_channel_videos_run (Channel : string → outcome ChannelObject)
    (channel_url : string) (w : world) :
  get_channel_videos Channel channel_url w
  = match listing_failure Channel channel_url with
    | None => (Ok (listed_urls Channel channel_url), w)
    | Some e => if is_Exception e then (Ok [], w) else (Raise e, w)
    end.
Proof.
  unfold get_channel_videos, listing_failure, listed_urls. run_monad.
  destruct (Channel channel_url) as [c|e]; simpl; [|done].
  rewrite for_videos_run. simpl. by destruct (videos_error c).
Qed.

(** When the channel cannot be opened, or its listing breaks off, with an
    [Exception], [get_channel_videos] returns the empty list: the URLs
    collected before the failure are dropped. *)
Theorem get_channel_videos_fails_soft
    (Channel : string → outcome ChannelObject) (channel_url : string)
    (w : world) (e : exn) :
  listing_failure Channel channel_url = Some e →
  is_Exception e = true →
  get_channel_videos Channel channel_url w = (Ok [], w).
Proof.
  intros Hfail He. by rewrite get_channel_videos_run, Hfail, He.
Qed.

Lemma get_channel_videos_fails_soft_witness :
  listing_failure
    (λ _, Ok (MkChannel (videos Demo.listing)
                        (Some (Exn RuntimeError "connection lost"))))
    "https://www.youtube.com/@veritasium"
  = Some (Exn RuntimeError "connection lost")
  ∧ get_channel_videos
      (λ _, Ok (MkChannel (videos Demo.listing)
                          (Some (Exn RuntimeError "connection lost"))))
      "https://www.youtube.com/@veritasium" Scenario.fresh
    = (Ok [], Scenario.fresh).
Proof.
  split; [reflexivity|].
  apply (get_channel_videos_fails_soft _ _ _
           (Exn RuntimeError "connection lost")); reflexivity.
Defined.

(** When the listing completes, [get_channel_videos] returns one watch URL
    for each video whose identifier can be read, in the order of the
    listing.  A video whose identifier raises is skipped, whatever it
    raises, so the result is never longer than the listing. *)
Theorem get_channel_videos_lists_the_readable_videos
    (Channel : string → outcome ChannelObject) (channel_url : string)
    (w : world) (c : ChannelObject) :
  Channel channel_url = Ok c →
  videos_error c = None →
  ∃ video_urls,
    get_channel_videos Channel channel_url w = (Ok video_urls, w)
    ∧ video_urls = watch_url <$> readable_ids (videos c)
    ∧ length video_urls ≤ length (videos c)
    ∧ (∀ id, id ∈ readable_ids (videos c)
             ↔ ∃ video, video ∈ videos c ∧ video_id video = Ok id).
Proof.
  intros Hc Herr. eexists. split; [|split; [reflexivity|split]].
  - rewrite get_channel_videos_run. unfold listing_failure, listed_urls.
    by rewrite Hc, Herr.
  - rewrite length_fmap. apply readable_ids_length.
  - intros id. unfold readable_ids. rewrite list_elem_of_omap. split.
    + intros (video & Hin & Hid). exists video. split; [done|].
      by destruct (video_id video) as [id'|]; simplify_eq.
    + intros (video & Hin & Hid). exists video. by rewrite Hid.
Qed.

Lemma get_channel_videos_lists_the_readable_videos_witness :
  ∃ video_urls,
    get_channel_videos (λ _, Ok Demo.listing)
      "https://www.youtube.com/@veritasium" Scenario.fresh
    = (Ok video_urls, Scenario.fresh)
    ∧ video_urls = [ "https://www.youtube.com/watch?v=dQw4w9WgXcQ";
                     "https://www.youtube.com/watch?v=9bZkp7q19f0" ]
    ∧ length video_urls ≤ 3
    ∧ (∀ id, id ∈ readable_ids (videos Demo.listing)
             ↔ ∃ video, video ∈ videos Demo.listing ∧ video_id video = Ok id).
Proof.
  apply (get_channel_videos_lists_the_readable_videos (λ _, Ok Demo.listing)
           "https://www.youtube.com/@veritasium" Scenario.fresh Demo.listing);
    reflexivity.
Defined.

End ChannelFacts.

(* ===================================================================== *)
(** * From the listing to the transcript, and the main program *)
(* ===================================================================== *)

Module ProgramFacts.

Import PyFacts MainProgram ResolverFacts ExtractorFacts ChannelFacts.

(** ** A listed URL leads back to its video *)

Lemma contains_app (sep : ascii) (a b : string) :
  contains sep (a +:+ String sep b) = true.
Proof.
  induction a as [|c a IH]; simpl; [by rewrite decide_True|].
  by case_decide.
Qed.

(** The pieces after the last separator are those of the text after it. *)
Lemma last_split_app (sep : ascii) (a b : string) :
  last (split (a +:+ String sep b) sep) = last (split b sep).
Proof.
  induction a as [|c a IH]; simpl.
  - rewrite decide_True by done.
    destruct (last_split sep b) as (piece & Hlast & _).
    destruct (split b sep); [done|]. by rewrite last_cons_cons.
  - case_decide as Hc.
    + rewrite <- IH.
      destruct (split_with_sep sep _ (contains_app sep a b))
        as (p & ps & -> & _).
      by rewrite last_cons_cons.
    + rewrite <- IH.
      destruct (split_with_sep sep _ (contains_app sep a b))
        as (p & ps & -> & Hps).
      destruct ps; [done|]. by rewrite !last_cons_cons.
Qed.

(** The URL that [get_channel_videos] builds for an identifier without
    ['='] is resolved by [get_transcript] to that identifier: it is what
    the caption request, the first call of the run, is made with. *)
Theorem listed_url_resolves_to_its_video
    (E : env) (id : string) (w : world) :
  contains "=" id = false →
  video_id_of (watch_url id) = Ok id
  ∧ ∃ rest, log (get_transcript E (watch_url id) w).2
            = log w ++ EvFetch id languages :: rest.
Proof.
  intros Hid.
  assert (Hv : video_id_of (watch_url id) = Ok id).
  { unfold video_id_of, watch_url, index_last.
    change ("https://www.youtube.com/watch?v=" +:+ id)
      with ("https://www.youtube.com/watch?v" +:+ String "=" id).
    rewrite contains_app, last_split_app, split_no_sep by done. done. }
  split; [done|]. by apply TranscriptFacts.fetch_comes_first.
Qed.

Lemma listed_url_resolves_to_its_video_witness :
  contains "=" "dQw4w9WgXcQ" = false
  ∧ video_id_of "https://www.youtube.com/watch?v=dQw4w9WgXcQ"
    = Ok "dQw4w9WgXcQ"
  ∧ ∃ rest,
      log (get_transcript Scenario.all_fine
             "https://www.youtube.com/watch?v=dQw4w9WgXcQ" Scenario.fresh).2
      = log Scenario.fresh ++ EvFetch "dQw4w9WgXcQ" languages :: rest.
Proof.
  split; [reflexivity|].
  apply (listed_url_resolves_to_its_video Scenario.all_fine "dQw4w9WgXcQ"
           Scenario.fresh).
  reflexivity.
Defined.

(** ** The report *)

(** The report of a bundle of [get_insights], by the answer of the scorer. *)
Lemma report_after_analysis
    (E : env) (t : string) (w : world) :
  t ≠ EmptyString →
  analyses_raise_only_Exception E t = true →
  ∃ insights w',
    get_insights E (Some t) w = (Ok insights, w')
    ∧ match polarity_of E t with
      | Ok _ => report insights = Some (inr tt)
      | Raise _ => report insights = Some (inl NoneType_has_no_get)
      end.
Proof.
  intros Ht Hexc. eexists _, _.
  split; [by apply InsightFacts.get_insights_run|].
  unfold report, sentiment_entry, dict_get.
  rewrite InsightFacts.lookup_sentiment, InsightFacts.lookup_summary,
    InsightFacts.lookup_entities.
  unfold sentiment_field, sentiment_of.
  destruct (polarity_of E t) as [p|e]; [|done].
  assert (Hsummary : summary_field E t = VNone
                     ∨ ∃ s, summary_field E t = VStr s).
  { unfold summary_field.
    destruct (summarizer_answer E t) as [[[|first rest]|]|]; try by left.
    destruct (first !! "summary_text"); [right; by eexists|by left]. }
  assert (Hentities : ∃ l, entities_field E t = VList l).
  { unfold entities_field. destruct (nlp_answer E t) as [[|]|]; by eexists. }
  destruct Hentities as [l ->]. by destruct Hsummary as [->|[s ->]].
Qed.

(** The report of a bundle built by [get_insights] dies on the sentiment
    line exactly when the sentiment analysis has failed: the entry is then
    [None], which has no [get].  On every other bundle of [get_insights]
    the report goes through. *)
Theorem report_fails_exactly_when_sentiment_failed
    (E : env) (t : string) (w : world) :
  t ≠ EmptyString →
  analyses_raise_only_Exception E t = true →
  ∃ insights w',
    get_insights E (Some t) w = (Ok insights, w')
    ∧ match polarity_of E t with
      | Ok _ => report insights = Some (inr tt)
      | Raise _ => report insights = Some (inl NoneType_has_no_get)
      end.
Proof. apply report_after_analysis. Qed.

Lemma report_fails_exactly_when_sentiment_failed_witness :
  ∃ insights w',
    get_insights Demo.no_scorer (Some "never gonna give you up") Scenario.fresh
    = (Ok insights, w')
    ∧ report insights = Some (inl NoneType_has_no_get).
Proof.
  apply (report_fails_exactly_when_sentiment_failed Demo.no_scorer
           "never gonna give you up" Scenario.fresh);
    [discriminate|reflexivity].
Defined.

(** The run and the report when the scorer fails (the form used for the
    main program). *)
Lemma report_from_failed_sentiment
    (E : env) (t : string) (w : world) (e : exn) :
  t ≠ EmptyString →
  polarity_of E t = Raise e →
  analyses_raise_only_Exception E t = true →
  ∃ insights,
    get_insights E (Some t) w
    = (Ok insights, World (files w) (log w ++ analyses_log E t))
    ∧ report insights = Some (inl NoneType_has_no_get).
Proof.
  intros Ht Hp Hexc. eexists.
  split; [by apply InsightFacts.get_insights_run|].
  unfold report, sentiment_entry, dict_get.
  rewrite InsightFacts.lookup_sentiment. unfold sentiment_field.
  by rewrite Hp.
Qed.

(** ** The main program *)

Lemma truthy_nonempty (t : string) :
  t ≠ EmptyString → truthy (Some t) = true.
Proof. by destruct t. Qed.

Lemma is_fetch_fetch_of (video_url : string) :
  is_fetch (fetch_of video_url) = true.
Proof. unfold fetch_of. by destruct (video_id_of video_url). Qed.

(** The caption requests of the loop are those of an initial part of its
    list of URLs, one each, in order. *)
Lemma process_videos_fetches (E : env) (video_urls : list string) (w : world) :
  ∃ new n,
    log (process_videos E video_urls w).2 = log w ++ new
    ∧ n ≤ length video_urls
    ∧ filter (λ ev, is_fetch ev = true) new = fetch_of <$> take n video_urls.
Proof.
  revert w. induction video_urls as [|url rest IH]; intros w.
  { exists [], 0. simpl. rewrite app_nil_r. split; [done|split; [lia|done]]. }
  destruct (get_transcript_fetches_once E url w) as (r1 & Hlog1 & Hr1).
  (* the run stops after the first video *)
  assert (Hstop : ∀ r, filter (λ ev, is_fetch ev = true) r = [] →
            filter (λ ev, is_fetch ev = true) (fetch_of url :: r)
            = fetch_of <$> take 1 (url :: rest)).
  { intros r Hr. rewrite filter_cons, decide_True by apply is_fetch_fetch_of.
    by rewrite Hr. }
  (* the run goes on with the other videos, from the world [w1] *)
  assert (Hgo : ∀ w1 r,
            log w1 = log w ++ fetch_of url :: r →
            filter (λ ev, is_fetch ev = true) r = [] →
            ∃ new n,
              log (process_videos E rest w1).2 = log w ++ new
              ∧ n ≤ length (url :: rest)
              ∧ filter (λ ev, is_fetch ev = true) new
                = fetch_of <$> take n (url :: rest)).
  { intros w1 r Hlog Hr. destruct (IH w1) as (new & n & Hnew & Hn & Hfetch).
    exists (fetch_of url :: r ++ new), (S n). split; [|split].
    - rewrite Hnew, Hlog, <- app_assoc. done.
    - simpl. lia.
    - rewrite filter_cons, decide_True by apply is_fetch_fetch_of.
      rewrite filter_app, Hr, Hfetch. done. }
  simpl. unfold mbind, M_bind.
  destruct (get_transcript E url w) as [[transcript|e] w1] eqn:Hrun;
    simpl in Hlog1.
  2:{ exists (fetch_of url :: r1), 1. simpl. split; [done|].
      split; [lia|]. by apply Hstop. }
  destruct (truthy transcript); [|by eapply Hgo].
  destruct (analyses_make_no_fetch E transcript w1) as (r2 & Hrun2 & Hr2).
  assert (Hr12 : filter (λ ev, is_fetch ev = true) (r1 ++ r2) = [])
    by (by rewrite filter_app, Hr1, Hr2).
  destruct (get_insights E transcript w1) as [[insights|e] w2];
    simpl in Hrun2; subst w2.
  2:{ exists (fetch_of url :: r1 ++ r2), 1. simpl.
      split; [by rewrite Hlog1, <- app_assoc|]. split; [lia|].
      by apply Hstop. }
  destruct (report insights) as [[message|[]]|]; simpl.
  - exists (fetch_of url :: r1 ++ r2), 1.
    split; [by rewrite Hlog1, <- app_assoc|]. split; [simpl; lia|].
    by apply Hstop.
  - apply (Hgo _ (r1 ++ r2)); [|done]. simpl. by rewrite Hlog1, <- app_assoc.
  - exists (fetch_of url :: r1 ++ r2), 1.
    split; [by rewrite Hlog1, <- app_assoc|]. split; [simpl; lia|].
    by apply Hstop.
Qed.

(** Whatever the collaborators do, the main program asks for the captions
    of at most three videos: the first ones of the listing, in its order,
    once each. *)
Theorem main_processes_at_most_three_videos (P : program) (w : world) :
  ∃ new n,
    log (main P w).2 = log w ++ new
    ∧ n ≤ 3
    ∧ filter (λ ev, is_fetch ev = true) new
      = fetch_of <$> take n (listed_urls (Channel P) (CHANNEL_URL P)).
Proof.
  unfold main, mbind, M_bind. rewrite get_channel_videos_run.
  destruct (listing_failure (Channel P) (CHANNEL_URL P)) as [e|].
  { exists [], 0. rewrite app_nil_r. split; [|split; [lia|done]].
    by destruct (is_Exception e). }
  destruct (listed_urls (Channel P) (CHANNEL_URL P)) as [|url urls] eqn:Hurls.
  { exists [], 0. simpl. rewrite app_nil_r. split; [done|split; [lia|done]]. }
  destruct (process_videos_fetches (collaborators P) (take 3 (url :: urls)) w)
    as (new & n & Hlog & Hn & Hfetch).
  rewrite length_take in Hn.
  exists new, n. split; [done|]. split; [lia|].
  rewrite Hfetch, take_take. f_equal. f_equal. lia.
Qed.

(** The exit status 1 is that of a run without videos.  When nothing is
    listed, be it that the channel has no video or that listing it failed
    with an [Exception], the program leaves with [exit(1)] before any other
    call; when a video is listed, it never leaves with an exit status. *)
Theorem main_exits_1_exactly_without_videos (P : program) (w : world) :
  (∀ e, listing_failure (Channel P) (CHANNEL_URL P) = Some e →
        is_Exception e = true) →
  (listed_urls (Channel P) (CHANNEL_URL P) = [] →
   main P w = (Ok (Some (SystemExit 1)), w))
  ∧ (listed_urls (Channel P) (CHANNEL_URL P) ≠ [] →
     ∀ status, (main P w).1 ≠ Ok (Some (SystemExit status))).
Proof.
  intros Hexc. unfold main, mbind, M_bind. rewrite get_channel_videos_run.
  assert (Hloop : ∀ urls w1 status,
            (process_videos (collaborators P) urls w1).1
            ≠ Ok (Some (SystemExit status))).
  { induction urls as [|url urls IH]; intros w1 status; simpl; [done|].
    unfold mbind, M_bind.
    destruct (get_transcript (collaborators P) url w1) as [[tr|e] w2];
      [|done].
    destruct (truthy tr); [|apply IH].
    destruct (get_insights (collaborators P) tr w2) as [[insights|e] w3];
      [|done].
    destruct (report insights) as [[message|[]]|]; [done|apply IH|done]. }
  destruct (listing_failure (Channel P) (CHANNEL_URL P)) as [e|] eqn:Hfail.
  - rewrite (Hexc e eq_refl). split; [done|].
    unfold listed_urls, listing_failure in *.
    destruct (Channel P (CHANNEL_URL P)) as [c|]; [|done].
    by rewrite Hfail.
  - split; [by intros ->|].
    destruct (listed_urls (Channel P) (CHANNEL_URL P)); [done|].
    intros _ status. apply Hloop.
Qed.

Lemma main_exits_1_exactly_without_videos_witness :
  listed_urls (Channel Demo.unreachable) (CHANNEL_URL Demo.unreachable) = []
  ∧ CHANNEL_URL Demo.unreachable = default_channel
  ∧ main Demo.unreachable Scenario.fresh
    = (Ok (Some (SystemExit 1)), Scenario.fresh).
Proof.
  split; [reflexivity|]. split; [reflexivity|].
  apply (main_exits_1_exactly_without_videos Demo.unreachable Scenario.fresh);
    [|reflexivity].
  intros e [= <-]. reflexivity.
Defined.

(** A failed sentiment analysis stops the whole program.  When the first
    listed video has captions and the scorer raises on its transcript, the
    bundle holds [None] for the sentiment, the report dies with an
    [AttributeError], and no other video is looked at. *)
Theorem main_dies_on_a_failed_sentiment
    (P : program) (w : world) (url : string) (others : list string)
    (video_id : string) (segments : list FetchedTranscriptSnippet) (e : exn) :
  let E := collaborators P in
  let t := join " " (text <$> segments) in
  listing_failure (Channel P) (CHANNEL_URL P) = None →
  listed_urls (Channel P) (CHANNEL_URL P) = url :: others →
  video_id_of url = Ok video_id →
  fetch E video_id languages = Ok segments →
  t ≠ EmptyString →
  polarity_of E t = Raise e →
  analyses_raise_only_Exception E t = true →
  main P w
  = (Ok (Some (AttributeError NoneType_has_no_get)),
     World (files w)
           (log w ++ EvFetch video_id languages :: analyses_log E t)).
Proof.
  intros E t Hfail Hurls Hv Hf Ht Hp Hexc.
  unfold main, mbind, M_bind. rewrite get_channel_videos_run, Hfail, Hurls.
  simpl take. simpl process_videos. unfold mbind, M_bind.
  assert (Hrun : get_transcript E url w
                 = (Ok (Some t), record (EvFetch video_id languages) w)).
  { unfold get_transcript.
    unfold mbind, M_bind, mret, M_ret, lift, call, try_except.
    by rewrite Hv, Hf. }
  fold E. rewrite Hrun. cbv beta iota. rewrite (truthy_nonempty t Ht).
  destruct (report_from_failed_sentiment E t
              (record (EvFetch video_id languages) w) e Ht Hp Hexc)
    as (insights & Hinsights & Hreport).
  rewrite Hinsights. cbv beta iota. rewrite Hreport.
  unfold mret, M_ret. simpl. by rewrite <- app_assoc.
Qed.

Lemma main_dies_on_a_failed_sentiment_witness :
  listed_urls (Channel Demo.failing_report) (CHANNEL_URL Demo.failing_report)
  = [ "https://www.youtube.com/watch?v=dQw4w9WgXcQ";
      "https://www.youtube.com/watch?v=9bZkp7q19f0" ]
  ∧ main Demo.failing_report Scenario.fresh
    = (Ok (Some (AttributeError NoneType_has_no_get)),
       World ∅ [ EvFetch "dQw4w9WgXcQ" languages;
                 EvTextBlob "never gonna give you up" ]).
Proof.
  split; [reflexivity|].
  apply (main_dies_on_a_failed_sentiment Demo.failing_report Scenario.fresh
           "https://www.youtube.com/watch?v=dQw4w9WgXcQ"
           [ "https://www.youtube.com/watch?v=9bZkp7q19f0" ]
           "dQw4w9WgXcQ" Scenario.captions
           (Exn RuntimeError "missing corpus"));
    try reflexivity.
  discriminate.
Defined.

(** Captions without text are not a failure of the first method: when the
    caption service answers with segments whose joined text is empty,
    [get_transcript] returns the empty transcript without trying the
    speech-to-text fallback, and the main program goes on to the next video
    without running any analysis. *)
Theorem empty_captions_skip_the_video
    (E : env) (url : string) (others : list string) (w : world)
    (video_id : string) (segments : list FetchedTranscriptSnippet) :
  video_id_of url = Ok video_id →
  fetch E video_id languages = Ok segments →
  join " " (text <$> segments) = EmptyString →
  get_transcript E url w
  = (Ok (Some EmptyString), record (EvFetch video_id languages) w)
  ∧ process_videos E (url :: others) w
    = process_videos E others (record (EvFetch video_id languages) w).
Proof.
  intros Hv Hf Hempty.
  assert (Hrun : get_transcript E url w
                 = (Ok (Some EmptyString),
                    record (EvFetch video_id languages) w)).
  { unfold get_transcript.
    unfold mbind, M_bind, mret, M_ret, lift, call, try_except.
    by rewrite Hv, Hf, Hempty. }
  split; [done|]. simpl. unfold mbind, M_bind. by rewrite Hrun.
Qed.

Lemma empty_captions_skip_the_video_witness :
  get_transcript
    (Env None None None (λ _ _, Ok [Snippet "" 0 1]) (λ _, Raise Scenario.no_captions)
         (λ _, Ok 0%float) (λ _, false))
    Scenario.video_url Scenario.fresh
  = (Ok (Some EmptyString), World ∅ [EvFetch "dQw4w9WgXcQ" languages])
  ∧ process_videos
      (Env None None None (λ _ _, Ok [Snippet "" 0 1]) (λ _, Raise Scenario.no_captions)
           (λ _, Ok 0%float) (λ _, false))
      [Scenario.video_url] Scenario.fresh
    = (Ok (Some Completed), World ∅ [EvFetch "dQw4w9WgXcQ" languages]).
Proof.
  apply (empty_captions_skip_the_video
           (Env None None None (λ _ _, Ok [Snippet "" 0 1])
                (λ _, Raise Scenario.no_captions) (λ _, Ok 0%float) (λ _, false))
           Scenario.video_url [] Scenario.fresh "dQw4w9WgXcQ"
           [Snippet "" 0 1]); reflexivity.
Defined.




End ProgramFacts.

(* ===================================================================== *)
(** * The paper fetcher: identifiers, searches, aggregation *)
(* ===================================================================== *)

Module ResourceFacts.

Import FetchResources.

Ltac run_monad :=
  unfold mbind, M_bind, mret, M_ret, lift, call, try_except in *; simpl in *.

(** ** Cleaning the identifier *)

Lemma startswith_app (p s : string) : startswith p (p +:+ s) = true.
Proof. induction p as [|a p IH]; simpl; [done|]. by rewrite decide_True. Qed.

Lemma replace_from_skip (old new p s : string) :
  replace_from old new (String.length p) (p +:+ s) = replace_from old new 0 s.
Proof. induction p as [|a p IH]; simpl; [done|]. apply IH. Qed.

(** A leading occurrence is replaced, and the scan goes on after it. *)
Lemma replace_leading (a : ascii) (old' new s : string) :
  replace (String a old' +:+ s) (String a old') new
  = new +:+ replace s (String a old') new.
Proof.
  unfold replace.
  change (String a old' +:+ s) with (String a (old' +:+ s)).
  cbn [replace_from].
  change (String a (old' +:+ s)) with (String a old' +:+ s).
  rewrite startswith_app.
  replace (String.length (String a old') - 1) with (String.length old')
    by (simpl; lia).
  by rewrite replace_from_skip.
Qed.

Lemma replace_absent (old new s : string) :
  occurs old s = false → replace s old new = s.
Proof.
  unfold replace. induction s as [|a s IH]; [done|].
  cbn [occurs replace_from]. intros [Hhere Hlater]%orb_false_elim.
  rewrite Hhere. by rewrite IH.
Qed.

(** The capitalised prefix holds no occurrence of the other one. *)
Lemma replace_passes_arXiv (s : string) :
  replace ("arXiv:" +:+ s) "arxiv:" "" = "arXiv:" +:+ replace s "arxiv:" "".
Proof. reflexivity. Qed.

(** The identifier may be given bare or with one of the prefixes [arxiv:]
    and [arXiv:]: the cleaned identifier, hence the endpoints queried and
    the search made, are the same. *)
Theorem clean_id_ignores_the_prefix (arxiv_id : string) :
  clean_id ("arxiv:" +:+ arxiv_id) = clean_id arxiv_id
  ∧ clean_id ("arXiv:" +:+ arxiv_id) = clean_id arxiv_id
  ∧ endpoints ("arxiv:" +:+ arxiv_id) = endpoints arxiv_id
  ∧ endpoints ("arXiv:" +:+ arxiv_id) = endpoints arxiv_id
  ∧ search_params ("arxiv:" +:+ arxiv_id) = search_params arxiv_id
  ∧ search_params ("arXiv:" +:+ arxiv_id) = search_params arxiv_id.
Proof.
  assert (Hlower : clean_id ("arxiv:" +:+ arxiv_id) = clean_id arxiv_id).
  { unfold clean_id. by rewrite (replace_leading "a" "rxiv:"). }
  assert (Hupper : clean_id ("arXiv:" +:+ arxiv_id) = clean_id arxiv_id).
  { unfold clean_id.
    by rewrite replace_passes_arXiv, (replace_leading "a" "rXiv:"). }
  unfold endpoints, search_params. by rewrite Hlower, Hupper.
Qed.

(** An identifier in which neither prefix occurs is left as it is: a
    version suffix such as [v1] is kept. *)
Theorem clean_id_keeps_a_bare_identifier (arxiv_id : string) :
  occurs "arxiv:" arxiv_id = false →
  occurs "arXiv:" arxiv_id = false →
  clean_id arxiv_id = arxiv_id.
Proof.
  intros Hlower Hupper. unfold clean_id.
  by rewrite (replace_absent "arxiv:") , (replace_absent "arXiv:").
Qed.

Lemma clean_id_keeps_a_bare_identifier_witness :
  occurs "arxiv:" "2301.00001v1" = false
  ∧ occurs "arXiv:" "2301.00001v1" = false
  ∧ clean_id "2301.00001v1" = "2301.00001v1".
Proof.
  split; [reflexivity|]. split; [reflexivity|].
  apply (clean_id_keeps_a_bare_identifier "2301.00001v1"); reflexivity.
Defined.

(** ** The searches *)

(** One search, when its failures are [RequestException]s. *)
Lemma search_by_paper_run (path : string) (self : Fetcher)
    (arxiv_id : string) (w : world) :
  search_fails_with_RequestException path self arxiv_id = true →
  search_by_paper path self arxiv_id w
  = (Ok (search_result path self arxiv_id),
     record (EvGet (BASE_URL +:+ path) 10) w).
Proof.
  unfold search_fails_with_RequestException, search_by_paper, search_result.
  run_monad.
  destruct (session_get_params self (BASE_URL +:+ path)
              (search_params arxiv_id) 10) as [response|e]; simpl.
  - destruct (status_code response =? 200)%Z; simpl; [|done].
    destruct (json_body response) as [data|e]; simpl; [done|].
    by intros ->.
  - by intros ->.
Qed.

(** Each of the three searches makes one request, with the timeout 10, and
    always returns a list: the items of the answer when the status is 200
    and the body is a JSON array, the empty list for any other status, for
    a body that is not an array, and for a request that fails. *)
Theorem search_returns_the_array_or_nothing
    (path : string) (self : Fetcher) (arxiv_id : string) (w : world) :
  search_fails_with_RequestException path self arxiv_id = true →
  ∃ result,
    search_by_paper path self arxiv_id w
    = (Ok result, record (EvGet (BASE_URL +:+ path) 10) w)
    ∧ (∀ response items,
         session_get_params self (BASE_URL +:+ path)
           (search_params arxiv_id) 10 = Ok response →
         status_code response = 200%Z →
         json_body response = Ok (JArray items) →
         result = items)
    ∧ (∀ response,
         session_get_params self (BASE_URL +:+ path)
           (search_params arxiv_id) 10 = Ok response →
         status_code response ≠ 200%Z →
         result = [])
    ∧ (∀ response data,
         session_get_params self (BASE_URL +:+ path)
           (search_params arxiv_id) 10 = Ok response →
         json_body response = Ok data →
         (∀ items, data ≠ JArray items) →
         result = [])
    ∧ (∀ e,
         session_get_params self (BASE_URL +:+ path)
           (search_params arxiv_id) 10 = Raise e →
         result = []).
Proof.
  intros Hexc. exists (search_result path self arxiv_id).
  split; [by apply search_by_paper_run|].
  unfold search_result. repeat split.
  - intros response items -> -> ->. done.
  - intros response -> Hcode. by apply Z.eqb_neq in Hcode as ->.
  - intros response data -> -> Hdata.
    destruct (status_code response =? 200)%Z; [|done].
    destruct data; try done. by destruct (Hdata items).
  - by intros e ->.
Qed.

Lemma search_returns_the_array_or_nothing_witness :
  search_models_by_paper Demo.hub "2301.00001" Scenario.fresh
  = (Ok [JObject [("id", JString "org/model")]],
     World ∅ [EvGet "https://huggingface.co/api/models" 10])
  ∧ search_datasets_by_paper Demo.hub "2301.00001" Scenario.fresh
    = (Ok [], World ∅ [EvGet "https://huggingface.co/api/datasets" 10])
  ∧ search_spaces_by_paper Demo.hub "2301.00001" Scenario.fresh
    = (Ok [], World ∅ [EvGet "https://huggingface.co/api/spaces" 10]).
Proof.
  split; [|split].
  - destruct (search_returns_the_array_or_nothing "/models" Demo.hub
                "2301.00001" Scenario.fresh eq_refl)
      as (result & Hrun & Harray & _).
    rewrite (Harray _ [JObject [("id", JString "org/model")]] eq_refl
               eq_refl eq_refl) in Hrun.
    exact Hrun.
  - destruct (search_returns_the_array_or_nothing "/datasets" Demo.hub
                "2301.00001" Scenario.fresh eq_refl)
      as (result & Hrun & _ & _ & Hother & _).
    rewrite (Hother _ (JObject [("error", JString "bad query")]) eq_refl
               eq_refl ltac:(discriminate)) in Hrun.
    exact Hrun.
  - destruct (search_returns_the_array_or_nothing "/spaces" Demo.hub
                "2301.00001" Scenario.fresh eq_refl)
      as (result & Hrun & _ & _ & _ & Hfail).
    rewrite (Hfail _ eq_refl) in Hrun. exact Hrun.
Defined.

(** ** The paper lookup *)

(** A 200 answer whose body does not decode does not end the lookup when
    the decoding error is a [RequestException]: the loop goes on with the
    next endpoints, so the body returned can be that of a later endpoint.
    A decoding error of another class leaves [fetch_paper_metadata]. *)
Theorem undecodable_answer_is_passed_over
    (self : Session) (endpoint : string) (others : list string) (w : world)
    (response : Response) (e : exn) :
  session_get self endpoint 10 = Ok response →
  status_code response = 200%Z →
  json_body response = Raise e →
  try_endpoints self (endpoint :: others) w
  = if is_RequestException e
    then try_endpoints self others (record (EvGet endpoint 10) w)
    else (Raise e, record (EvGet endpoint 10) w).
Proof.
  intros Hget Hcode Hbody. simpl. unfold try_endpoint. run_monad.
  rewrite Hget, Hcode. simpl. rewrite Hbody. simpl.
  by destruct (is_RequestException e).
Qed.

Lemma undecodable_answer_is_passed_over_witness :
  fetch_paper_metadata Demo.garbled "2301.00001" Scenario.fresh
  = (Ok (Some Scenario.paper),
     World ∅ [ EvGet "https://huggingface.co/api/papers/2301.00001" 10;
               EvGet "https://huggingface.co/api/papers/arxiv:2301.00001" 10 ]).
Proof.
  unfold fetch_paper_metadata.
  change (endpoints "2301.00001")
    with [ "https://huggingface.co/api/papers/2301.00001";
           "https://huggingface.co/api/papers/arxiv:2301.00001";
           "https://huggingface.co/api/papers/arXiv:2301.00001" ].
  rewrite (undecodable_answer_is_passed_over Demo.garbled
             "https://huggingface.co/api/papers/2301.00001"
             [ "https://huggingface.co/api/papers/arxiv:2301.00001";
               "https://huggingface.co/api/papers/arXiv:2301.00001" ]
             Scenario.fresh
             (MkResponse 200 (Raise (Exn RequestException "Expecting value")))
             (Exn RequestException "Expecting value")
             eq_refl eq_refl eq_refl).
  reflexivity.
Defined.

(** When every failure is a [RequestException], the lookup returns, after
    at least one and at most all of the queries; when no endpoint answers
    200 it returns nothing, after all of them. *)
Lemma try_endpoints_returns (self : Session) (eps : list string) (w : world) :
  lookup_fails_with_RequestException self eps = true →
  ∃ r n,
    try_endpoints self eps w
    = (Ok r, World (files w) (log w ++ queries (take n eps)))
    ∧ n ≤ length eps
    ∧ (eps ≠ [] → 1 ≤ n)
    ∧ ((∀ endpoint, endpoint ∈ eps → responds_200 self endpoint = false) →
       r = None ∧ n = length eps).
Proof.
  revert w. induction eps as [|ep eps IH]; intros w Hexc.
  { exists None, 0. simpl. rewrite app_nil_r. by destruct w. }
  simpl in Hexc. apply andb_prop in Hexc as [Hep Hexc].
  assert (Hgo : try_endpoint self ep w = (Ok Continue, record (EvGet ep 10) w) →
            ∃ r n,
              try_endpoints self (ep :: eps) w
              = (Ok r, World (files w) (log w ++ queries (take n (ep :: eps))))
              ∧ n ≤ length (ep :: eps)
              ∧ (ep :: eps ≠ [] → 1 ≤ n)
              ∧ ((∀ endpoint, endpoint ∈ ep :: eps →
                              responds_200 self endpoint = false) →
                 r = None ∧ n = length (ep :: eps))).
  { intros Hturn.
    destruct (IH (record (EvGet ep 10) w) Hexc) as (r & n & Hrun & Hn & _ & Hall).
    exists r, (S n). split; [|split; [simpl; lia|split; [lia|]]].
    - simpl. unfold mbind, M_bind. rewrite Hturn, Hrun. simpl.
      by rewrite <- app_assoc.
    - intros Hno. destruct Hall as [-> ->]; [|done].
      intros endpoint Hin. apply Hno. by right. }
  destruct (session_get self ep 10) as [response|e] eqn:Hget.
  - destruct (status_code response =? 200)%Z eqn:Hcode.
    + destruct (json_body response) as [body|e] eqn:Hbody.
      * exists (Some body), 1. split; [|split; [simpl; lia|split; [lia|]]].
        -- simpl. unfold mbind, M_bind.
           by rewrite (FetchFacts.try_endpoint_found self ep response body w).
        -- intros Hno. specialize (Hno ep ltac:(by left)).
           unfold responds_200 in Hno. rewrite Hget in Hno. congruence.
      * apply Hgo. unfold try_endpoint. run_monad.
        by rewrite Hget, Hcode, Hbody, Hep.
    + apply Hgo. by eapply FetchFacts.try_endpoint_other_status.
  - apply Hgo. by apply (FetchFacts.try_endpoint_request_error self ep e w).
Qed.

(** ** The aggregation *)

(** [fetch_all_resources] looks the paper up and then makes the three
    searches, models, datasets, spaces, whatever the lookup gave: between
    four and six requests in all, each with the timeout 10.  The result
    always has the four keys: the paper entry is what the lookup returned
    ([null] for [None]) and the three resource entries are arrays, empty
    when their search found nothing or failed.  When no endpoint of the
    lookup answers 200, all three are queried and the paper entry is
    [null]. *)
Theorem fetch_all_resources_always_searches
    (self : Fetcher) (arxiv_id : string) (w : world) :
  lookup_fails_with_RequestException (session self) (endpoints arxiv_id)
  = true →
  search_fails_with_RequestException "/models" self arxiv_id = true →
  search_fails_with_RequestException "/datasets" self arxiv_id = true →
  search_fails_with_RequestException "/spaces" self arxiv_id = true →
  ∃ results paper_metadata n,
    fetch_paper_metadata (session self) arxiv_id w
    = (Ok paper_metadata,
       World (files w) (log w ++ queries (take n (endpoints arxiv_id))))
    ∧ fetch_all_resources self arxiv_id w
      = (Ok results,
         World (files w)
               (log w ++ queries (take n (endpoints arxiv_id)) ++ searches))
    ∧ 1 ≤ n ≤ 3
    ∧ ((∀ endpoint, endpoint ∈ endpoints arxiv_id →
                    responds_200 (session self) endpoint = false) →
       n = 3 ∧ results !! "paper" = Some JNull)
    ∧ dom results
      = ({[ "paper"; "models"; "datasets"; "spaces" ]} : gset string)
    ∧ results !! "paper" = Some (json_of_option paper_metadata)
    ∧ results !! "models"
      = Some (JArray (search_result "/models" self arxiv_id))
    ∧ results !! "datasets"
      = Some (JArray (search_result "/datasets" self arxiv_id))
    ∧ results !! "spaces"
      = Some (JArray (search_result "/spaces" self arxiv_id)).
Proof.
  intros Hlookup Hmodels Hdatasets Hspaces.
  destruct (try_endpoints_returns (session self) (endpoints arxiv_id) w Hlookup)
    as (r & n & Hrun & Hn & Hone & Hnone).
  unfold fetch_all_resources, search_models_by_paper,
    search_datasets_by_paper, search_spaces_by_paper.
  unfold fetch_paper_metadata at 1.
  unfold mbind, M_bind. unfold fetch_paper_metadata. rewrite Hrun.
  rewrite !search_by_paper_run by done.
  eexists _, r, n.
  split; [done|]. split; [|split; [|split; [|split; [|split]]]].
  - unfold mret, M_ret, record, searches. simpl.
    by rewrite <- !app_assoc.
  - split; [by apply Hone|done].
  - intros Hno. destruct (Hnone Hno) as [-> ->]. split; [done|].
    apply lookup_insert_eq.
  - rewrite !dom_insert_L, dom_singleton_L. set_solver.
  - apply lookup_insert_eq.
  - rewrite !lookup_insert_ne by done. rewrite lookup_insert_eq.
    split; [done|]. rewrite !lookup_insert_ne by done.
    rewrite lookup_insert_eq. split; [done|].
    rewrite !lookup_insert_ne by done. apply lookup_singleton_eq.
Qed.

Lemma fetch_all_resources_always_searches_witness :
  ∃ results paper_metadata n,
    fetch_paper_metadata (session Demo.hub) "2301.00001" Scenario.fresh
    = (Ok paper_metadata,
       World ∅ (queries (take n (endpoints "2301.00001"))))
    ∧ fetch_all_resources Demo.hub "2301.00001" Scenario.fresh
      = (Ok results,
         World ∅ (queries (take n (endpoints "2301.00001")) ++ searches))
    ∧ 1 ≤ n ≤ 3
    ∧ ((∀ endpoint, endpoint ∈ endpoints "2301.00001" →
                    responds_200 (session Demo.hub) endpoint = false) →
       n = 3 ∧ results !! "paper" = Some JNull)
    ∧ dom results
      = ({[ "paper"; "models"; "datasets"; "spaces" ]} : gset string)
    ∧ results !! "paper" = Some (json_of_option paper_metadata)
    ∧ results !! "models" = Some (JArray [JObject [("id", JString "org/model")]])
    ∧ results !! "datasets" = Some (JArray [])
    ∧ results !! "spaces" = Some (JArray []).
Proof.
  apply (fetch_all_resources_always_searches Demo.hub "2301.00001"
           Scenario.fresh); reflexivity.
Defined.

End ResourceFacts.
